(** * RAUW tafel-ontwerper: request composition and response demultiplexing

    A shallow embedding of [src/mix_images.py] and of the generation
    endpoint of [src/api.py], with the properties of the prompt builder,
    the request composer and the stream demultiplexer. *)

From Stdlib Require Import String Ascii List ZArith QArith Lia Bool Strings.Byte.
From Stdlib Require Import DecimalString DecimalNat Sorted.
Import ListNotations.

Close Scope Q_scope.
Local Open Scope list_scope.
Local Open Scope string_scope.

(** ** Python primitives used by the program *)

Module Py.

Definition bytes := list byte.

(** [str(n)] for a non-negative [int]. *)
Definition str_nat (n : nat) : string :=
  NilZero.string_of_uint (Nat.to_uint n).

(** [str(z)] for an [int]. *)
Definition str_int (z : Z) : string :=
  NilZero.string_of_int (Z.to_int z).

(** [int(x)] for a float [x]: truncation toward zero.  Clock readings are
    kept as rationals. *)
Definition int_of (q : Q) : Z := Z.quot (Qnum q) (Zpos (Qden q)).

(** [sub in s] *)
Fixpoint contains (sub s : string) : bool :=
  if prefix sub s then true
  else match s with
       | EmptyString => false
       | String _ s' => contains sub s'
       end.

(** [s.endswith(suf)] *)
Fixpoint endswith (s suf : string) : bool :=
  if String.eqb s suf then true
  else match s with
       | EmptyString => false
       | String _ s' => endswith s' suf
       end.

(** Truthiness of a [str] and of an [Optional[str]]. *)
Definition truthy (s : string) : bool := negb (String.eqb s "").

Definition truthy_opt (o : option string) : bool :=
  match o with
  | Some s => truthy s
  | None => false
  end.

(** [posixpath.join(a, b)] *)
Definition path_join (a b : string) : string :=
  if prefix "/" b then b
  else if String.eqb a "" then b
  else if endswith a "/" then a ++ b
  else a ++ "/" ++ b.

(** Rendering of an [Optional[str]] inside an f-string. *)
Definition fmt_opt (o : option string) : string :=
  match o with
  | Some s => s
  | None => "None"
  end.

End Py.

Import Py.

(** ** mix_images.py: the prompt builder *)

Module Prompt.

Definition legs_instruction (legs : string) : string :=
  if truthy legs
  then " IMPORTANT: The table must have exactly " ++ legs ++ " legs."
  else "".

Definition generate_table_prompt (with_room : bool) (legs : string) : string :=
  if with_room then
    "Create a photorealistic visualization by following these steps: "
    ++ "1) First, combine the table shape from image 1, the table base from image 2, "
    ++ "and the wood finish/color from image 3 into one complete, elegant custom dining table. "
    ++ "2) Then, place this complete table naturally in the room shown in image 4. "
    ++ "Match the perspective, lighting, and shadows of the room precisely. "
    ++ "The table should integrate seamlessly as if it belongs in this space, "
    ++ "with realistic proportions, natural placement on the floor, "
    ++ "and appropriate shadows and reflections. "
    ++ "The final image should look like a professional photograph of this custom table "
    ++ "in the actual room." ++ legs_instruction legs
  else
    "Create a new image by combining the elements from the provided images. "
    ++ "Take [the table shape] from image 1 and combine it with [the table base] from image 2, "
    ++ "applying [the wood finish and color] from image 3. "
    ++ "The final image should be [a complete, elegant custom-made dining table "
    ++ "placed prominently in a modern, stylish living room with natural lighting]."
    ++ legs_instruction legs.

(** The two templates with no leg-count clause. *)
Definition template (with_room : bool) : string :=
  generate_table_prompt with_room "".

End Prompt.

Import Prompt.

(** ** Exceptions, the world and the effect monad *)

Module Effects.

Inductive exn :=
| ValueError (msg : string)
| IndexError (msg : string)
| AttributeError (msg : string)
| FileNotFoundError (path : string)
| SystemExit (code : Z) (msg : string)
| HTTPException (status_code : Z) (detail : string)
| APIError (msg : string).

(** [isinstance(e, Exception)]: [SystemExit] derives from [BaseException]
    only. *)
Definition is_Exception (e : exn) : bool :=
  match e with
  | SystemExit _ _ => false
  | _ => true
  end.

(** Parts of a request or of a response ([google.genai.types]); every
    field is optional there. *)
Record Blob := mkBlob { data : option bytes; mime_type : option string }.
Record Part := mkPart { inline_data : option Blob; text : option string }.
Record Content := mkContent { parts : option (list Part) }.
Record Candidate := mkCandidate { content : option Content }.
Record Chunk := mkChunk { candidates : option (list Candidate) }.

(** [types.Part.from_text(text=t)] *)
Definition from_text (t : string) : Part := mkPart None (Some t).

(** The response stream: finitely many chunks, after which the iterator
    either is exhausted or raises. *)
Record Stream := mkStream { chunks : list Chunk; failure : option exn }.

(** What the program does to the outside, in order. *)
Inductive event :=
| Printed (line : string)
| Wrote (path : string) (content : bytes)
| Deleted (path : string)
| Called (model : string) (contents : list Part) (modalities : list string).

(** Files by path, the number of clock readings taken so far, and the
    events so far (oldest first). *)
Record World := mkWorld {
  fs : list (string * bytes);
  ticks : nat;
  trace : list event
}.

(** What the program finds around it. *)
Record Env := mkEnv {
  environ : string -> option string;        (* os.environ.get *)
  guess_type : string -> option string;     (* mimetypes.guess_type(p)[0] *)
  guess_extension : string -> option string;(* mimetypes.guess_extension *)
  clock : nat -> Q;                         (* successive time.time() *)
  service : string -> list Part -> Stream   (* the remote model *)
}.

Inductive outcome (A : Type) :=
| Ok (a : A)
| Raised (e : exn).
Arguments Ok {A} a.
Arguments Raised {A} e.

Definition M (A : Type) : Type := World -> outcome A * World.

Definition ret {A} (a : A) : M A := fun w => (Ok a, w).

Definition raise {A} (e : exn) : M A := fun w => (Raised e, w).

Definition bind {A B} (c : M A) (k : A -> M B) : M B :=
  fun w => match c w with
           | (Ok a, w') => k a w'
           | (Raised e, w') => (Raised e, w')
           end.

(** [try: body except Exception as e: handler(e)] *)
Definition try_except {A} (body : M A) (handler : exn -> M A) : M A :=
  fun w => match body w with
           | (Raised e, w') =>
               if is_Exception e then handler e w' else (Raised e, w')
           | r => r
           end.

Definition emit (e : event) : M unit :=
  fun w => (Ok tt, mkWorld (fs w) (ticks w) (trace w ++ [e])%list).

Definition print (line : string) : M unit := emit (Printed line).

Fixpoint fs_lookup (files : list (string * bytes)) (path : string)
  : option bytes :=
  match files with
  | [] => None
  | (p, d) :: rest => if String.eqb p path then Some d else fs_lookup rest path
  end.

Fixpoint fs_store (files : list (string * bytes)) (path : string) (d : bytes)
  : list (string * bytes) :=
  match files with
  | [] => [(path, d)]
  | (p, d0) :: rest =>
      if String.eqb p path then (path, d) :: rest
      else (p, d0) :: fs_store rest path d
  end.

Definition fs_remove (files : list (string * bytes)) (path : string)
  : list (string * bytes) :=
  filter (fun e => negb (String.eqb (fst e) path)) files.

(** [os.path.exists(path)], for files. *)
Definition path_exists (path : string) : M bool :=
  fun w => (Ok (match fs_lookup (fs w) path with
                | Some _ => true
                | None => false
                end), w).

(** [with open(path, "rb") as f: f.read()] *)
Definition read_file (path : string) : M bytes :=
  fun w => match fs_lookup (fs w) path with
           | Some d => (Ok d, w)
           | None => (Raised (FileNotFoundError path), w)
           end.

(** [with open(path, "wb") as f: f.write(d)]; the directory of [path] is
    taken to exist and to be writable. *)
Definition write_file (path : string) (d : bytes) : M unit :=
  fun w => (Ok tt, mkWorld (fs_store (fs w) path d) (ticks w)
                           (trace w ++ [Wrote path d])%list).

(** [path.unlink()] *)
Definition unlink (path : string) : M unit :=
  fun w => match fs_lookup (fs w) path with
           | Some _ => (Ok tt, mkWorld (fs_remove (fs w) path) (ticks w)
                                       (trace w ++ [Deleted path])%list)
           | None => (Raised (FileNotFoundError path), w)
           end.

Section WithEnv.
Variable E : Env.

(** [time.time()] *)
Definition time_time : M Q :=
  fun w => (Ok (clock E (ticks w)),
            mkWorld (fs w) (S (ticks w)) (trace w)).

(** [client.models.generate_content_stream(model=, contents=, config=)] *)
Definition generate_content_stream
  (model : string) (contents : list Part) (modalities : list string)
  : M Stream :=
  fun w => (Ok (service E model contents),
            mkWorld (fs w) (ticks w)
                    (trace w ++ [Called model contents modalities])%list).
End WithEnv.

(** Projections of a trace. *)
Fixpoint writes (t : list event) : list (string * bytes) :=
  match t with
  | [] => []
  | Wrote p d :: r => (p, d) :: writes r
  | _ :: r => writes r
  end.

Fixpoint printed (t : list event) : list string :=
  match t with
  | [] => []
  | Printed l :: r => l :: printed r
  | _ :: r => printed r
  end.

Fixpoint calls (t : list event) : list (list Part) :=
  match t with
  | [] => []
  | Called _ c _ :: r => c :: calls r
  | _ :: r => calls r
  end.

Definition empty_world (files : list (string * bytes)) : World :=
  mkWorld files 0 [].

End Effects.

Import Effects.

Notation "x <- c ;; k" := (bind c (fun x => k))
  (at level 61, c at next level, right associativity).
Notation "c ;;; k" := (bind c (fun _ => k))
  (at level 61, right associativity).

(** ** mix_images.py: request composer and response demultiplexer *)

Module MixImages.

Definition MODEL_NAME : string := "gemini-2.5-flash-image-preview".

(** [xs[0]] *)
Definition first {A} (xs : list A) : M A :=
  match xs with
  | x :: _ => ret x
  | [] => raise (IndexError "list index out of range")
  end.

(** The name given to an artifact, below the output directory. *)
Definition artifact_name (timestamp : Z) (file_index : nat)
  (file_extension : option string) : string :=
  "remixed_image_" ++ str_int timestamp ++ "_" ++ str_nat file_index
  ++ fmt_opt file_extension.

(** The command line as [argparse] hands it over. *)
Record Args := mkArgs {
  image : option (list string);
  prompt : option string;
  output_dir : string;
  room_image : option string;
  legs : option string
}.

Section WithEnv.
Variable E : Env.

Definition _get_mime_type (file_path : string) : M string :=
  match guess_type E file_path with
  | None =>
      raise (ValueError ("Could not determine MIME type for " ++ file_path))
  | Some mime_type => ret mime_type
  end.

Definition _save_binary_file (file_name : string) (d : bytes) : M unit :=
  write_file file_name d ;;;
  print ("File saved to: " ++ file_name).

(** The loop of [_load_image_parts], from its accumulator [acc]. *)
Fixpoint load_from (image_paths : list string) (acc : list Part)
  : M (list Part) :=
  match image_paths with
  | [] => ret acc
  | image_path :: rest =>
      image_data <- read_file image_path ;;
      mime_type <- _get_mime_type image_path ;;
      load_from rest
        (acc ++ [mkPart (Some (mkBlob (Some image_data) (Some mime_type)))
                        None])%list
  end.

Definition _load_image_parts (image_paths : list string) : M (list Part) :=
  load_from image_paths [].

(** [mimetypes.guess_extension(t)]; it lower-cases its argument first,
    which fails on [None]. *)
Definition guess_extension_of (t : option string) : M (option string) :=
  match t with
  | Some m => ret (guess_extension E m)
  | None =>
      raise (AttributeError "'NoneType' object has no attribute 'lower'")
  end.

(** The body of the loop over the parts of one chunk; the result is the
    value of [file_index] after it.  An [inline_data] is taken when its
    [data] is neither [None] nor empty. *)
Definition process_part (output_dir : string) (part : Part)
  (file_index : nat) : M nat :=
  let otherwise :=
    if truthy_opt (text part)
    then print (fmt_opt (text part)) ;;; ret file_index
    else ret file_index in
  match inline_data part with
  | Some blob =>
      match data blob with
      | Some (b :: bs) =>
          now <- time_time E ;;
          let timestamp := int_of now in
          file_extension <- guess_extension_of (mime_type blob) ;;
          let file_name :=
            path_join output_dir
              (artifact_name timestamp file_index file_extension) in
          _save_binary_file file_name (b :: bs) ;;;
          ret (S file_index)
      | _ => otherwise
      end
  | None => otherwise
  end.

Fixpoint process_parts (output_dir : string) (ps : list Part)
  (file_index : nat) : M nat :=
  match ps with
  | [] => ret file_index
  | part :: rest =>
      i <- process_part output_dir part file_index ;;
      process_parts output_dir rest i
  end.

(** The body of the loop over the chunks. *)
Definition process_chunk (output_dir : string) (chunk : Chunk)
  (file_index : nat) : M nat :=
  match candidates chunk with
  | None => ret file_index
  | Some cs =>
      c <- first cs ;;
      match content c with
      | None => ret file_index
      | Some ct =>
          match parts ct with
          | None => ret file_index
          | Some ps => process_parts output_dir ps file_index
          end
      end
  end.

Fixpoint process_chunks (output_dir : string) (cs : list Chunk)
  (file_index : nat) : M nat :=
  match cs with
  | [] => ret file_index
  | chunk :: rest =>
      i <- process_chunk output_dir chunk file_index ;;
      process_chunks output_dir rest i
  end.

Definition _process_api_stream_response (stream : Stream)
  (output_dir : string) : M unit :=
  process_chunks output_dir (chunks stream) 0 ;;;
  match failure stream with
  | Some e => raise e
  | None => ret tt
  end.

Definition remix_images (image_paths : list string) (prompt : string)
  (output_dir : string) : M unit :=
  if negb (truthy_opt (environ E "GEMINI_API_KEY"))
  then raise (ValueError "GEMINI_API_KEY environment variable not set.")
  else
    contents <- _load_image_parts image_paths ;;
    let contents := (contents ++ [from_text prompt])%list in
    print ("Remixing with " ++ str_nat (length image_paths)
           ++ " images and prompt: " ++ prompt) ;;;
    stream <- generate_content_stream E MODEL_NAME contents
                ["IMAGE"; "TEXT"] ;;
    _process_api_stream_response stream output_dir.

(** [parser.error(msg)]: exit with status 2. *)
Definition parser_error {A} (msg : string) : M A :=
  raise (SystemExit 2 msg).

Definition legs_or_empty (args : Args) : string :=
  if truthy_opt (legs args) then fmt_opt (legs args) else "".

(** The branch of [main] taken when [-i] was given ([args.image] is
    [all_image_paths], not empty), up to the end of [main].  The
    directory of the output is taken to exist, so [os.makedirs] does
    nothing. *)
Definition main_cli (args : Args) (all_image_paths : list string)
  : M unit :=
  all_image_paths <-
    (if truthy_opt (room_image args) then
       let room := fmt_opt (room_image args) in
       found <- path_exists room ;;
       if (length all_image_paths =? 3)%nat && found then
         print ("✓ Adding room image: " ++ room) ;;;
         ret (all_image_paths ++ [room])%list
       else if negb (length all_image_paths =? 3)%nat then
         print ("⚠️  Warning: --room-image is designed for 3-image table "
                ++ "workflow (vorm, onderstel, kleur). Ignoring room image.") ;;;
         ret all_image_paths
       else if negb found then
         print ("✗ Room image not found: " ++ room) ;;;
         ret all_image_paths
       else ret all_image_paths
     else ret all_image_paths) ;;
  let num_images := length all_image_paths in
  if negb ((1 <=? num_images)%nat && (num_images <=? 5)%nat) then
    parser_error
      "Please provide between 1 and 5 input images using the -i flag."
  else
    let final_prompt :=
      match prompt args with
      | Some p => p
      | None =>
          if (num_images =? 4)%nat && truthy_opt (room_image args) then
            generate_table_prompt true (legs_or_empty args)
          else if (num_images =? 3)%nat then
            generate_table_prompt false (legs_or_empty args)
          else if (num_images =? 1)%nat then
            "Turn this image into a professional quality studio shoot "
            ++ "with better lighting and depth of field."
          else
            "Combine the subjects of these images in a natural way, "
            ++ "producing a new image."
      end in
    remix_images all_image_paths final_prompt (output_dir args).

End WithEnv.

End MixImages.

Import MixImages.

(** ** api.py: the generation endpoint *)

Module Api.

(** What the server finds on its host: the directory of the package, the
    token that [secrets.token_hex(8)] draws for this request, and the
    modification times that [stat] reports when the output is listed. *)
Record Host := mkHost {
  BASE_DIR : string;
  token_hex : string;
  st_mtime : string -> Q
}.

Record UploadFile := mkUploadFile { upload : bytes }.

Record JSONResponse := mkJSONResponse {
  success : bool;
  output_url : string;
  filename : string;
  message : string
}.

Definition MAX_FILE_SIZE : Z := 10 * 1024 * 1024.

(** The components of a path between its slashes; [cur] is the component
    being read. *)
Fixpoint components (s cur : string) : list string :=
  match s with
  | EmptyString => [cur]
  | String c r =>
      if Ascii.eqb c "/"%char then cur :: components r ""
      else components r (cur ++ String c "")
  end.

(** [Path(filename).name]: the last component that is neither empty nor
    a dot. *)
Definition safe_filename (filename : string) : string :=
  last (filter (fun c => negb (String.eqb c "" || String.eqb c "."))
               (components filename ""))
       "".

(** [p / name] *)
Definition path_div (p name : string) : string :=
  if String.eqb name "" then p else path_join p name.

(** [str(e)] *)
Definition str_exn (e : exn) : string :=
  match e with
  | ValueError m | IndexError m | AttributeError m | APIError m => m
  | FileNotFoundError p =>
      "[Errno 2] No such file or directory: '" ++ p ++ "'"
  | SystemExit _ m => m
  | HTTPException c d => str_int c ++ ": " ++ d
  end.

Fixpoint strip_prefix (pre s : string) : option string :=
  match pre, s with
  | EmptyString, _ => Some s
  | String c p, String d r =>
      if Ascii.eqb c d then strip_prefix p r else None
  | String _ _, EmptyString => None
  end.

(** The name under which [path] answers [dir.glob("remixed_image_*")],
    if it does. *)
Definition remixed_name (dir path : string) : option string :=
  match strip_prefix (dir ++ "/") path with
  | Some name =>
      if prefix "remixed_image_" name && negb (contains "/" name)
      then Some name
      else None
  | None => None
  end.

(** The names of [dir.glob("remixed_image_*")], in the order of the
    directory. *)
Fixpoint glob_remixed (dir : string) (files : list (string * bytes))
  : list string :=
  match files with
  | [] => []
  | (p, _) :: rest =>
      match remixed_name dir p with
      | Some name => name :: glob_remixed dir rest
      | None => glob_remixed dir rest
      end
  end.

(** [sep.join(xs)] *)
Fixpoint join_with (sep : string) (xs : list string) : string :=
  match xs with
  | [] => ""
  | [x] => x
  | x :: rest => x ++ sep ++ join_with sep rest
  end.

(** [s.lower()], on the letters A to Z. *)
Definition lower_char (c : ascii) : ascii :=
  let n := nat_of_ascii c in
  if (65 <=? n)%nat && (n <=? 90)%nat then ascii_of_nat (n + 32) else c.

Fixpoint lower (s : string) : string :=
  match s with
  | EmptyString => EmptyString
  | String c r => String (lower_char c) (lower r)
  end.

(** The part of [s] from its last dot on, if it has a dot. *)
Fixpoint from_last_dot (s : string) : option string :=
  match s with
  | EmptyString => None
  | String c r =>
      match from_last_dot r with
      | Some t => Some t
      | None => if Ascii.eqb c "."%char then Some (String c r) else None
      end
  end.

(** [Path(name).suffix]: from the last dot on, when that dot is neither the
    first nor the last character. *)
Definition suffix (name : string) : string :=
  match name with
  | EmptyString => ""
  | String _ r =>
      match from_last_dot r with
      | Some (String _ (String c t)) => String "."%char (String c t)
      | _ => ""
      end
  end.

(** [sorted(names)] *)
Fixpoint insert_sorted (name : string) (sorted : list string) : list string :=
  match sorted with
  | [] => [name]
  | y :: rest =>
      if String.leb name y then name :: y :: rest
      else y :: insert_sorted name rest
  end.

Definition sorted (names : list string) : list string :=
  fold_right insert_sorted [] names.

(** The names of the files of [dir.iterdir()], in the order of the
    directory. *)
Fixpoint iterdir (dir : string) (files : list (string * bytes)) : list string :=
  match files with
  | [] => []
  | (p, _) :: rest =>
      match strip_prefix (dir ++ "/") p with
      | Some name =>
          if negb (contains "/" name) && negb (String.eqb name "")
          then name :: iterdir dir rest
          else iterdir dir rest
      | None => iterdir dir rest
      end
  end.

Section WithHost.
Variable E : Env.
Variable H : Host.

Definition OUTPUT_DIR : string := path_div (BASE_DIR H) "output".

Definition validate_file_size (file : UploadFile) : M UploadFile :=
  if (Z.of_nat (length (upload file)) >? MAX_FILE_SIZE)%Z
  then raise (HTTPException 413 "File exceeds 10MB limit")
  else ret file.

(** [sorted(names, key=mtime, reverse=True)], which keeps the order of
    names of equal age. *)
Fixpoint insert_by_mtime (name : string) (sorted : list string)
  : list string :=
  match sorted with
  | [] => [name]
  | y :: rest =>
      if Qle_bool (st_mtime H (path_div OUTPUT_DIR y))
                  (st_mtime H (path_div OUTPUT_DIR name))
      then name :: y :: rest
      else y :: insert_by_mtime name rest
  end.

Definition newest_first (names : list string) : list string :=
  fold_right insert_by_mtime [] names.

Definition output_files : M (list string) :=
  fun w => (Ok (newest_first (glob_remixed OUTPUT_DIR (fs w))), w).

Fixpoint require_all (checks : list (string * string)) : M unit :=
  match checks with
  | [] => ret tt
  | (path, name) :: rest =>
      found <- path_exists path ;;
      if negb found
      then raise (HTTPException 404
                    (name ++ " file not found: " ++ safe_filename path))
      else require_all rest
  end.

Definition cleanup (room_photo_path : option string) : M unit :=
  match room_photo_path with
  | Some p =>
      found <- path_exists p ;;
      if found then unlink p else ret tt
  | None => ret tt
  end.

Definition generate_table (vorm onderstel kleur : string)
  (room_photo : option UploadFile) : M JSONResponse :=
  let vorm_path := path_div (path_div (BASE_DIR H) "vorm") (safe_filename vorm) in
  let onderstel_path :=
    path_div (path_div (BASE_DIR H) "onderstel") (safe_filename onderstel) in
  let kleur_path := path_div (path_div (BASE_DIR H) "kleur") (safe_filename kleur) in
  require_all [(vorm_path, "vorm"); (onderstel_path, "onderstel");
               (kleur_path, "kleur")] ;;;
  let image_paths := [vorm_path; onderstel_path; kleur_path] in
  staged <-
    match room_photo with
    | Some file =>
        validate_file_size file ;;;
        let room_photo_path :=
          path_div OUTPUT_DIR ("temp_room_" ++ token_hex H ++ ".jpg") in
        write_file room_photo_path (upload file) ;;;
        ret (Some room_photo_path, (image_paths ++ [room_photo_path])%list)
    | None => ret (None, image_paths)
    end ;;
  let room_photo_path := fst staged in
  let image_paths := snd staged in
  let prompt :=
    generate_table_prompt (match room_photo with Some _ => true | None => false end)
                          "" in
  if negb (truthy_opt (environ E "GEMINI_API_KEY")) then
    raise (HTTPException 500
             "GEMINI_API_KEY not configured. Please set environment variable.")
  else
    try_except
      (remix_images E image_paths prompt OUTPUT_DIR ;;;
       found <- output_files ;;
       match found with
       | [] =>
           raise (HTTPException 500
                    "Image generation failed - no output produced")
       | latest_output :: _ =>
           cleanup room_photo_path ;;;
           ret (mkJSONResponse true ("/api/output/" ++ latest_output)
                  latest_output "Table generated successfully")
       end)
      (fun e =>
         cleanup room_photo_path ;;;
         raise (HTTPException 500 ("Generation failed: " ++ str_exn e))).

(** [FileResponse(path)] is taken as the path it serves. *)
Definition get_output_image (filename : string) : M string :=
  let safe_name := safe_filename filename in
  if negb (prefix "remixed_image_" safe_name) then
    raise (HTTPException 403 "Access denied")
  else
    let file_path := path_div OUTPUT_DIR safe_name in
    found <- path_exists file_path ;;
    if negb found
    then raise (HTTPException 404 "Output image not found")
    else ret file_path.

Definition CATEGORIES : list string := ["vorm"; "onderstel"; "kleur"].

Definition get_category_image (category filename : string) : M string :=
  if negb (existsb (String.eqb category) CATEGORIES) then
    raise (HTTPException 400 "Invalid category")
  else
    let file_path :=
      path_div (path_div (BASE_DIR H) category) (safe_filename filename) in
    found <- path_exists file_path ;;
    if negb found
    then raise (HTTPException 404 "Image not found")
    else ret file_path.

(** Which directories there are on the host. *)
Variable dir_exists : string -> bool.

Record Listing := mkListing {
  category_of : string;
  images : list string;
  count : nat
}.

Definition list_category_images (category : string) : M Listing :=
  if negb (existsb (String.eqb category) CATEGORIES) then
    raise (HTTPException 400
             ("Invalid category. Must be one of: " ++ join_with ", " CATEGORIES))
  else
    let category_dir := path_div (BASE_DIR H) category in
    if negb (dir_exists category_dir) then
      raise (HTTPException 404 "Category directory not found")
    else
      fun w =>
        let images :=
          sorted (filter (fun name =>
                            existsb (String.eqb (lower (suffix name)))
                                    [".jpg"; ".jpeg"; ".png"])
                         (iterdir category_dir (fs w))) in
        (Ok (mkListing category images (length images)), w).

End WithHost.

End Api.

(** ** A concrete environment

    A fragment of the default tables of CPython's [mimetypes], a clock that
    advances by one second per reading, and a model that answers every
    request with a text part and a PNG image in a first chunk and a JPEG
    image in a second one. *)

Module Sample.

Definition guess_type (p : string) : option string :=
  if endswith p ".png" then Some "image/png"
  else if endswith p ".jpg" || endswith p ".jpeg" then Some "image/jpeg"
  else if endswith p ".webp" then Some "image/webp"
  else None.

Definition guess_extension (m : string) : option string :=
  if String.eqb m "image/png" then Some ".png"
  else if String.eqb m "image/jpeg" then Some ".jpg"
  else if String.eqb m "image/webp" then Some ".webp"
  else None.

Definition clock (n : nat) : Q :=
  Qmake (1700000000 * 4 + 1 + 4 * Z.of_nat n) 4.

Definition environ (k : string) : option string :=
  if String.eqb k "GEMINI_API_KEY" then Some "secret" else None.

Definition png_bytes : bytes := [x89; x50; x4e; x47; x0d; x0a; x1a; x0a].
Definition jpeg_bytes : bytes := [xff; xd8; xff; xe0].

Definition image_part (d : bytes) (m : string) : Part :=
  mkPart (Some (mkBlob (Some d) (Some m))) None.

Definition chunk_of (ps : list Part) : Chunk :=
  mkChunk (Some [mkCandidate (Some (mkContent (Some ps)))]).

Definition chunk_A : Chunk :=
  chunk_of [from_text "hello"; image_part png_bytes "image/png"].

Definition chunk_B : Chunk :=
  chunk_of [image_part jpeg_bytes "image/jpeg"].

Definition two_chunks : Stream := mkStream [chunk_A; chunk_B] None.

Definition env_with (s : Stream) : Env :=
  mkEnv environ guess_type guess_extension clock (fun _ _ => s).

Definition env : Env := env_with two_chunks.

Definition files : list (string * bytes) :=
  [("vorm/rond.jpeg", [x01]); ("onderstel/kruis.png", [x02]);
   ("kleur/eiken.jpg", [x03]); ("kamer.webp", [x04]);
   ("notes.xyz", [x05])].

(** A model that answers with words only, and one that answers with
    nothing. *)
Definition words_only : Stream :=
  mkStream [chunk_of [from_text "I cannot draw this."]] None.

Definition no_chunks : Stream := mkStream [] None.

(** The host of the server and its files. *)
Definition host : Api.Host :=
  Api.mkHost "/srv/rauw" "9f8e7d6c5b4a3921" (fun _ => 0%Q).

Definition server_files : list (string * bytes) :=
  [("/srv/rauw/vorm/rond.jpeg", [x01]);
   ("/srv/rauw/onderstel/kruis.png", [x02]);
   ("/srv/rauw/kleur/eiken.jpg", [x03])].

Definition earlier_result : string * bytes :=
  ("/srv/rauw/output/remixed_image_1690000000_0.png", png_bytes).

(** A host whose earlier result is older than anything written later. *)
Definition timed_host : Api.Host :=
  Api.mkHost "/srv/rauw" "9f8e7d6c5b4a3921"
    (fun p => if String.eqb p (fst earlier_result) then 1%Q else 2%Q).

End Sample.

(** ** What a run of the demultiplexer is expected to show

    Pure readings of a stream, against which the runs are compared. *)

Module Expected.

(** The bytes and the reported type of a part that carries an image. *)
Definition binary_of (p : Part) : option (bytes * option string) :=
  match inline_data p with
  | Some blob =>
      match data blob with
      | Some (b :: bs) => Some (b :: bs, mime_type blob)
      | _ => None
      end
  | None => None
  end.

(** The parts of a chunk: those of its first candidate. *)
Definition usable_parts (c : Chunk) : list Part :=
  match candidates c with
  | Some (cand :: _) =>
      match content cand with
      | Some ct => match parts ct with Some ps => ps | None => [] end
      | None => []
      end
  | _ => []
  end.

(** The images that the loop over the parts meets, with their reported
    types, and whether it gets past the last part: it stops at an image
    whose type is not reported. *)
Fixpoint reached_parts (ps : list Part) : list (bytes * string) * bool :=
  match ps with
  | [] => ([], true)
  | p :: rest =>
      match binary_of p with
      | None => reached_parts rest
      | Some (d, Some m) =>
          let r := reached_parts rest in ((d, m) :: fst r, snd r)
      | Some (_, None) => ([], false)
      end
  end.

(** The same for one chunk: the loop over the chunks stops at a chunk
    whose list of candidates is empty. *)
Definition reached_chunk (c : Chunk) : list (bytes * string) * bool :=
  match candidates c with
  | Some [] => ([], false)
  | _ => reached_parts (usable_parts c)
  end.

Fixpoint reached (cs : list Chunk) : list (bytes * string) * bool :=
  match cs with
  | [] => ([], true)
  | c :: rest =>
      let here := reached_chunk c in
      if snd here
      then let r := reached rest in ((fst here ++ fst r)%list, snd r)
      else (fst here, false)
  end.

(** The files for a list of images, from a clock reading and an index
    on. *)
Fixpoint artifacts (E : Env) (output_dir : string) (tick index : nat)
  (images : list (bytes * string)) : list (string * bytes) :=
  match images with
  | [] => []
  | (d, m) :: rest =>
      (path_join output_dir
         (artifact_name (int_of (clock E tick)) index (guess_extension E m)),
       d)
      :: artifacts E output_dir (S tick) (S index) rest
  end.

(** A chunk that has a first candidate (or no list of candidates at all)
    and no image. *)
Definition text_only_chunk (c : Chunk) : bool :=
  match candidates c with
  | Some [] => false
  | _ => forallb (fun p => match binary_of p with
                           | None => true
                           | Some _ => false
                           end) (usable_parts c)
  end.

(** The part for an input file, as the composer builds it. *)
Definition loaded (E : Env) (files : list (string * bytes)) (path : string)
  : option Part :=
  match fs_lookup files path, guess_type E path with
  | Some d, Some m => Some (mkPart (Some (mkBlob (Some d) (Some m))) None)
  | _, _ => None
  end.

(** The file name as the specification words it:
    [remixed_image_<unixTimestampAtStart>_<index>.<ext>]. *)
Definition spec_file_name (unixTimestampAtStart : Z) (index : nat)
  (ext : string) : string :=
  "remixed_image_" ++ str_int unixTimestampAtStart ++ "_" ++ str_nat index
  ++ "." ++ ext.

(** The run [r] from the world [w] and the index [i] has saved the
    images [images] and nothing else, has called no service, and has got
    to the end of its loop exactly when [finished] says so. *)
Definition observes (E : Env) (output_dir : string)
  (r : outcome nat * World) (w : World) (i : nat)
  (images : list (bytes * string)) (finished : bool) : Prop :=
  writes (trace (snd r))
  = (writes (trace w) ++ artifacts E output_dir (ticks w) i images)%list
  /\ calls (trace (snd r)) = calls (trace w)
  /\ (images = [] -> fs (snd r) = fs w)
  /\ (if finished
      then fst r = Ok (i + length images)
           /\ ticks (snd r) = ticks w + length images
      else exists e, fst r = Raised e).

End Expected.

Import Expected.

(** ** Further readings of runs and of names *)

Module Further.

(** The files after the writes [saved], in their order. *)
Definition stored (files : list (string * bytes))
  (saved : list (string * bytes)) : list (string * bytes) :=
  fold_left (fun f a => fs_store f (fst a) (snd a)) saved files.

Definition is_digit (c : ascii) : bool :=
  let n := nat_of_ascii c in (48 <=? n)%nat && (n <=? 57)%nat.

Fixpoint all_chars (P : ascii -> bool) (s : string) : bool :=
  match s with
  | EmptyString => true
  | String c r => P c && all_chars P r
  end.

Definition not_slash (c : ascii) : bool := negb (Ascii.eqb c "/").

(** The first character of [s], if any, does not satisfy [P]. *)
Definition starts_outside (P : ascii -> bool) (s : string) : bool :=
  match s with
  | EmptyString => true
  | String c _ => negb (P c)
  end.

(** Every extension of the table starts with a dot. *)
Definition dotted_extensions (E : Env) : Prop :=
  forall m e, guess_extension E m = Some e -> prefix "." e = true.

(** The image parts for a list of input files that can all be loaded. *)
Fixpoint image_parts (E : Env) (files : list (string * bytes))
  (paths : list string) : list Part :=
  match paths with
  | [] => []
  | p :: rest =>
      match loaded E files p with
      | Some part => part :: image_parts E files rest
      | None => image_parts E files rest
      end
  end.

(** The lines a part makes the demultiplexer print. *)
Definition lines_of_part (E : Env) (out : string) (tick index : nat)
  (p : Part) : list string :=
  match binary_of p with
  | Some (d, Some m) =>
      ["File saved to: "
       ++ path_join out
            (artifact_name (int_of (clock E tick)) index (guess_extension E m))]
  | Some (_, None) => []
  | None =>
      match text p with
      | Some (String c t) => [String c t]
      | _ => []
      end
  end.

(** What the command-line mode of [main] settles before it calls
    [remix_images]: the images to send, the line it prints about the room
    image, and the prompt. *)
Definition staged_paths (files : list (string * bytes)) (args : Args)
  (paths : list string) : list string :=
  match room_image args with
  | Some (String c r) =>
      if (length paths =? 3)%nat
         && match fs_lookup files (String c r) with
            | Some _ => true
            | None => false
            end
      then (paths ++ [String c r])%list
      else paths
  | _ => paths
  end.

Definition stage_lines (files : list (string * bytes)) (args : Args)
  (paths : list string) : list event :=
  match room_image args with
  | Some (String c r) =>
      if negb (length paths =? 3)%nat then
        [Printed ("⚠️  Warning: --room-image is designed for 3-image table "
                  ++ "workflow (vorm, onderstel, kleur). Ignoring room image.")]
      else
        match fs_lookup files (String c r) with
        | Some _ => [Printed ("✓ Adding room image: " ++ String c r)]
        | None => [Printed ("✗ Room image not found: " ++ String c r)]
        end
  | _ => []
  end.

Definition room_given (args : Args) : bool := truthy_opt (room_image args).

Definition final_prompt (args : Args) (num_images : nat) : string :=
  match prompt args with
  | Some p => p
  | None =>
      if (num_images =? 4)%nat && room_given args then
        generate_table_prompt true (legs_or_empty args)
      else if (num_images =? 3)%nat then
        generate_table_prompt false (legs_or_empty args)
      else if (num_images =? 1)%nat then
        "Turn this image into a professional quality studio shoot "
        ++ "with better lighting and depth of field."
      else
        "Combine the subjects of these images in a natural way, "
        ++ "producing a new image."
  end.

(** The lines that the loop over the parts prints, from a clock reading and
    an index on. *)
Fixpoint lines_of_parts (E : Env) (out : string) (tick index : nat)
  (ps : list Part) : list string :=
  match ps with
  | [] => []
  | p :: rest =>
      (lines_of_part E out tick index p
       ++ match binary_of p with
          | Some (_, Some _) => lines_of_parts E out (S tick) (S index) rest
          | Some (_, None) => []
          | None => lines_of_parts E out tick index rest
          end)%list
  end.

(** The same for the loop over the chunks. *)
Fixpoint lines_of_chunks (E : Env) (out : string) (tick index : nat)
  (cs : list Chunk) : list string :=
  match cs with
  | [] => []
  | c :: rest =>
      match candidates c with
      | Some [] => []
      | _ =>
          let here := reached_parts (usable_parts c) in
          (lines_of_parts E out tick index (usable_parts c)
           ++ if snd here
              then lines_of_chunks E out (tick + length (fst here))
                     (index + length (fst here)) rest
              else [])%list
      end
  end.

(** The texts of the parts of a stream that carry no image. *)
Definition texts_of_part (p : Part) : list string :=
  match binary_of p, text p with
  | None, Some (String c t) => [String c t]
  | _, _ => []
  end.

Definition texts_of (cs : list Chunk) : list string :=
  flat_map (fun c => flat_map texts_of_part (usable_parts c)) cs.

Definition saved_line (a : string * bytes) : string :=
  "File saved to: " ++ fst a.

(** What [generate_table] has set up when it reaches the check of the key:
    the three input paths, the path of the staged room photo, the paths it
    will hand to [remix_images], and the world after the staging. *)
Definition input_paths (H : Api.Host) (vorm onderstel kleur : string)
  : list string :=
  [Api.path_div (Api.path_div (Api.BASE_DIR H) "vorm") (Api.safe_filename vorm);
   Api.path_div (Api.path_div (Api.BASE_DIR H) "onderstel")
     (Api.safe_filename onderstel);
   Api.path_div (Api.path_div (Api.BASE_DIR H) "kleur")
     (Api.safe_filename kleur)].

Definition room_path (H : Api.Host) : string :=
  Api.path_div (Api.OUTPUT_DIR H) ("temp_room_" ++ Api.token_hex H ++ ".jpg").

Definition request_paths (H : Api.Host) (vorm onderstel kleur : string)
  (room_photo : option Api.UploadFile) : list string :=
  match room_photo with
  | Some _ => (input_paths H vorm onderstel kleur ++ [room_path H])%list
  | None => input_paths H vorm onderstel kleur
  end.

Definition staged_world (H : Api.Host) (room_photo : option Api.UploadFile)
  (w : World) : World :=
  match room_photo with
  | Some file =>
      mkWorld (fs_store (fs w) (room_path H) (Api.upload file)) (ticks w)
              (trace w ++ [Wrote (room_path H) (Api.upload file)])%list
  | None => w
  end.

Definition staged_photo (H : Api.Host) (room_photo : option Api.UploadFile)
  : option string :=
  match room_photo with
  | Some _ => Some (room_path H)
  | None => None
  end.

Definition with_room (room_photo : option Api.UploadFile) : bool :=
  match room_photo with
  | Some _ => true
  | None => false
  end.

(** The modification time of a name of the output directory. *)
Definition age_of (H : Api.Host) (name : string) : Q :=
  Api.st_mtime H (Api.path_div (Api.OUTPUT_DIR H) name).

Definition small_enough (room_photo : option Api.UploadFile) : Prop :=
  match room_photo with
  | Some file => (Z.of_nat (length (Api.upload file)) <= Api.MAX_FILE_SIZE)%Z
  | None => True
  end.

(** A chunk that the loop over the chunks passes over: no candidates, or a
    first candidate with no content, no parts or an empty list of parts. *)
Definition skippable (c : Chunk) : bool :=
  match candidates c with
  | None => true
  | Some [] => false
  | Some (cand :: _) =>
      match content cand with
      | None => true
      | Some ct =>
          match parts ct with
          | None | Some [] => true
          | Some (_ :: _) => false
          end
      end
  end.

End Further.

Import Further.

(** ** Facts about the string primitives *)

Lemma prefix_refl_append (s t : string) : prefix s (s ++ t) = true.
Proof.
  induction s as [|c s IH]; simpl.
  - now destruct t.
  - destruct (ascii_dec c c) as [_|N]; [exact IH | now elim N].
Qed.

Lemma contains_prefix (sub s : string) :
  prefix sub s = true -> contains sub s = true.
Proof. destruct s; simpl; intros ->; reflexivity. Qed.

Lemma contains_here (sub t : string) : contains sub (sub ++ t) = true.
Proof. apply contains_prefix, prefix_refl_append. Qed.

Lemma contains_skip (a sub s : string) :
  contains sub s = true -> contains sub (a ++ s) = true.
Proof.
  intros H. induction a as [|c a IH]; [exact H|].
  cbn [append contains]. rewrite IH. now destruct (prefix _ _).
Qed.

Lemma contains_middle (a sub b : string) : contains sub (a ++ sub ++ b) = true.
Proof. apply contains_skip, contains_here. Qed.

Lemma append_assoc (a b c : string) : (a ++ b) ++ c = a ++ (b ++ c).
Proof. induction a as [|x a IH]; simpl; [reflexivity | now rewrite IH]. Qed.

Lemma endswith_append (a suf : string) : endswith (a ++ suf) suf = true.
Proof.
  induction a as [|c a IH].
  - destruct suf as [|d suf]; simpl; [reflexivity|].
    now rewrite Ascii.eqb_refl, String.eqb_refl.
  - cbn [append endswith]. rewrite IH. now destruct (_ =? _)%string.
Qed.

Lemma truthy_nonempty (s : string) : truthy s = true <-> s <> "".
Proof.
  unfold truthy. destruct s; simpl; split; intro H; easy.
Qed.

(** ** The prompt builder: leg-count clause *)

Lemma prompt_split (with_room : bool) (legs : string) :
  generate_table_prompt with_room legs = template with_room ++ legs_instruction legs.
Proof.
  unfold template, generate_table_prompt.
  destruct with_room; cbn [legs_instruction truthy String.eqb negb];
    rewrite ?append_assoc; simpl; reflexivity.
Qed.

(** ** Traces *)

Lemma writes_app (a b : list event) :
  writes (a ++ b)%list = (writes a ++ writes b)%list.
Proof.
  induction a as [|e a IH]; [reflexivity|].
  destruct e; simpl; rewrite IH; reflexivity.
Qed.

Lemma printed_app (a b : list event) :
  printed (a ++ b)%list = (printed a ++ printed b)%list.
Proof.
  induction a as [|e a IH]; [reflexivity|].
  destruct e; simpl; rewrite IH; reflexivity.
Qed.

Lemma calls_app (a b : list event) :
  calls (a ++ b)%list = (calls a ++ calls b)%list.
Proof.
  induction a as [|e a IH]; [reflexivity|].
  destruct e; simpl; rewrite IH; reflexivity.
Qed.

(** ** Files *)

Lemma fs_lookup_store (files : list (string * bytes)) (p : string) (d : bytes) :
  fs_lookup (fs_store files p d) p = Some d.
Proof.
  induction files as [|[q d0] files IH]; cbn [fs_store fs_lookup].
  - now rewrite String.eqb_refl.
  - destruct (q =? p)%string eqn:Hq; cbn [fs_lookup].
    + now rewrite String.eqb_refl.
    + now rewrite Hq.
Qed.

Lemma fs_lookup_store_other (files : list (string * bytes)) (p q : string)
  (d : bytes) :
  q <> p -> fs_lookup (fs_store files p d) q = fs_lookup files q.
Proof.
  intros Hne.
  assert (Hpq : (p =? q)%string = false)
    by (apply String.eqb_neq; congruence).
  induction files as [|[r d0] files IH]; cbn [fs_store fs_lookup].
  - now rewrite Hpq.
  - destruct (r =? p)%string eqn:Hr; cbn [fs_lookup].
    + apply String.eqb_eq in Hr as ->. now rewrite Hpq.
    + now rewrite IH.
Qed.

(** ** One part of a response *)

Section Demultiplexer.
Variable E : Env.
Variable out : string.

(** What the loop body does, by the kind of the part. *)
Lemma process_part_run (p : Part) (i : nat) (w : World) :
  process_part E out p i w =
  match binary_of p with
  | Some (d, Some m) =>
      let name := path_join out (artifact_name (int_of (clock E (ticks w))) i
                                   (guess_extension E m)) in
      (Ok (S i),
       mkWorld (fs_store (fs w) name d) (S (ticks w))
         ((trace w ++ [Wrote name d]) ++ [Printed ("File saved to: " ++ name)])%list)
  | Some (d, None) =>
      (Raised (AttributeError "'NoneType' object has no attribute 'lower'"),
       mkWorld (fs w) (S (ticks w)) (trace w))
  | None =>
      match text p with
      | Some (String c t) =>
          (Ok i, mkWorld (fs w) (ticks w) (trace w ++ [Printed (String c t)])%list)
      | _ => (Ok i, w)
      end
  end.
Proof.
  destruct p as [[[[[|b bs]|] [m|]]|] [[|c t]|]]; reflexivity.
Qed.

Lemma process_parts_observes (ps : list Part) :
  forall (i : nat) (w : World),
    observes E out (process_parts E out ps i w) w i
      (fst (reached_parts ps)) (snd (reached_parts ps)).
Proof.
  unfold observes.
  induction ps as [|p ps IH]; intros i w; cbn [process_parts reached_parts].
  - cbn. rewrite app_nil_r, !Nat.add_0_r. auto.
  - unfold bind. rewrite process_part_run.
    destruct (binary_of p) as [[d [m|]]|].
    + cbv zeta. cbn [fst snd].
      match goal with |- context [process_parts E out ps (S i) ?w1] =>
        destruct (IH (S i) w1) as (Hw & Hc & _ & Hf) end.
      cbn [trace ticks fs] in Hw, Hc, Hf.
      split; [|split; [|split; [discriminate|]]].
      * rewrite Hw, !writes_app. cbn. now rewrite app_nil_r, <- app_assoc.
      * rewrite Hc, !calls_app. cbn. now rewrite !app_nil_r.
      * revert Hf. destruct (snd (reached_parts ps)); [|auto].
        intros [Hr Ht]. rewrite Hr, Ht. cbn [length]. split; [f_equal|]; lia.
    + cbn. rewrite app_nil_r. repeat split; eauto.
    + destruct (text p) as [[|c t]|]; try apply IH.
      match goal with |- context [process_parts E out ps i ?w1] =>
        destruct (IH i w1) as (Hw & Hc & Hs & Hf) end.
      cbn [trace ticks fs] in Hw, Hc, Hs, Hf.
      split; [|split; [|split; [exact Hs|exact Hf]]].
      * rewrite Hw, !writes_app. cbn. now rewrite app_nil_r.
      * rewrite Hc, !calls_app. cbn. now rewrite !app_nil_r.
Qed.

Lemma artifacts_app (a b : list (bytes * string)) :
  forall tick index,
    artifacts E out tick index (a ++ b)%list
    = (artifacts E out tick index a
       ++ artifacts E out (tick + length a) (index + length a) b)%list.
Proof.
  induction a as [|[d m] a IH]; intros tick index; cbn [artifacts app length].
  - now rewrite !Nat.add_0_r.
  - rewrite IH, !Nat.add_succ_r. reflexivity.
Qed.

(** Two runs in a row. *)
Lemma observes_seq (r : outcome nat * World) (w w1 : World) (i i1 : nat)
  (a b : list (bytes * string)) (finished : bool) :
  observes E out (Ok i1, w1) w i a true ->
  observes E out r w1 i1 b finished ->
  observes E out r w i (a ++ b)%list finished.
Proof.
  unfold observes. cbn [fst snd].
  intros (Hw1 & Hc1 & Hs1 & Hr1 & Ht1) (Hw & Hc & Hs & Hf).
  injection Hr1 as ->.
  split; [|split; [|split]].
  - rewrite Hw, Hw1, artifacts_app, Ht1, <- app_assoc. reflexivity.
  - now rewrite Hc.
  - intros Hab. apply app_eq_nil in Hab as [-> ->].
    now rewrite Hs, Hs1.
  - destruct finished; [|exact Hf].
    destruct Hf as [Hr Ht]. rewrite Hr, Ht, Ht1, length_app.
    split; [f_equal|]; lia.
Qed.

Lemma observes_ret (i : nat) (w : World) :
  observes E out (Ok i, w) w i [] true.
Proof.
  unfold observes. cbn. rewrite app_nil_r, !Nat.add_0_r. auto.
Qed.

Lemma process_chunk_observes (c : Chunk) (i : nat) (w : World) :
  observes E out (process_chunk E out c i w) w i
    (fst (reached_chunk c)) (snd (reached_chunk c)).
Proof.
  destruct c as [[[|[[[[ps|]]|]] cs]|]];
    cbn; try apply observes_ret; try apply process_parts_observes.
  unfold observes. cbn. rewrite app_nil_r. repeat split; eauto.
Qed.

Lemma process_chunks_observes (cs : list Chunk) :
  forall (i : nat) (w : World),
    observes E out (process_chunks E out cs i w) w i
      (fst (reached cs)) (snd (reached cs)).
Proof.
  induction cs as [|c cs IH]; intros i w; cbn [process_chunks reached].
  - apply observes_ret.
  - pose proof (process_chunk_observes c i w) as Hc.
    unfold bind. destruct (snd (reached_chunk c)) eqn:Hfin; cbn [fst snd].
    + destruct (process_chunk E out c i w) as [[i1|e] w1].
      * eapply observes_seq; [exact Hc | apply IH].
      * destruct Hc as (_ & _ & _ & Hr & _). discriminate Hr.
    + destruct (process_chunk E out c i w) as [[i1|e] w1]; [|exact Hc].
      destruct Hc as (_ & _ & _ & e & Hr). discriminate Hr.
Qed.

End Demultiplexer.

(** ** The whole response stream *)

Section Stream.
Variable E : Env.
Variable out : string.

(** The run over a stream saves the images its loop reaches, under the
    names of [artifacts], and calls no service; it ends as the stream
    ends when the loop gets past the last chunk, and raises otherwise. *)
Lemma stream_run (s : Stream) (w : World) :
  let r := _process_api_stream_response E s out w in
  let images := fst (reached (chunks s)) in
  writes (trace (snd r))
  = (writes (trace w) ++ artifacts E out (ticks w) 0 images)%list
  /\ calls (trace (snd r)) = calls (trace w)
  /\ (images = [] -> fs (snd r) = fs w)
  /\ (if snd (reached (chunks s))
      then fst r = match failure s with
                   | Some e => Raised e
                   | None => Ok tt
                   end
      else exists e, fst r = Raised e).
Proof.
  cbv zeta. unfold _process_api_stream_response, bind.
  pose proof (process_chunks_observes E out (chunks s) 0 w) as H.
  destruct (process_chunks E out (chunks s) 0 w) as [[i|e] w1];
    destruct H as (Hw & Hc & Hs & Hf); cbn [fst snd] in *.
  - destruct (snd (reached (chunks s))).
    + destruct (failure s); cbn; auto.
    + destruct Hf as [e He]. discriminate He.
  - destruct (snd (reached (chunks s))).
    + destruct Hf as [He _]. discriminate He.
    + eauto 6.
Qed.

Lemma artifacts_nth (images : list (bytes * string)) :
  forall (tick index k : nat) (path : string) (d : bytes),
    nth_error (artifacts E out tick index images) k = Some (path, d) ->
    exists m,
      nth_error images k = Some (d, m)
      /\ path = path_join out
                  (artifact_name (int_of (clock E (tick + k))) (index + k)
                     (guess_extension E m)).
Proof.
  induction images as [|[d0 m0] images IH]; intros tick index k path d.
  - destruct k; discriminate.
  - destruct k as [|k]; cbn [artifacts nth_error].
    + intros [= <- <-]. exists m0. now rewrite !Nat.add_0_r.
    + intros H. apply IH in H as (m & Hn & ->).
      exists m. now rewrite !Nat.add_succ_r.
Qed.

Lemma artifacts_length (images : list (bytes * string)) :
  forall tick index,
    length (artifacts E out tick index images) = length images.
Proof.
  induction images as [|[d m] images IH]; intros tick index;
    cbn [artifacts length]; [reflexivity | now rewrite IH].
Qed.

(** Chunks with nothing to read are passed over. *)
Lemma chunk_without_content_skipped (c : Chunk) (i : nat) (w : World) :
  (candidates c = None
   \/ (exists cs, candidates c = Some (mkCandidate None :: cs))
   \/ (exists cs, candidates c = Some (mkCandidate (Some (mkContent None)) :: cs))
   \/ (exists cs,
         candidates c = Some (mkCandidate (Some (mkContent (Some []))) :: cs))) ->
  process_chunk E out c i w = (Ok i, w).
Proof.
  destruct c as [cands]; cbn [candidates].
  intros [->|[[cs ->]|[[cs ->]|[cs ->]]]]; reflexivity.
Qed.

Lemma text_only_reached (cs : list Chunk) :
  forallb text_only_chunk cs = true -> reached cs = ([], true).
Proof.
  assert (P : forall ps,
             forallb (fun p => match binary_of p with
                               | None => true
                               | Some _ => false
                               end) ps = true ->
             reached_parts ps = ([], true)).
  { induction ps as [|p ps IH]; cbn [forallb reached_parts]; [reflexivity|].
    destruct (binary_of p); [discriminate | exact IH]. }
  induction cs as [|c cs IH]; cbn [forallb reached]; [reflexivity|].
  intros H. apply andb_prop in H as [Hc Hcs].
  assert (Hr : reached_chunk c = ([], true)).
  { unfold text_only_chunk in Hc. unfold reached_chunk.
    destruct (candidates c) as [[|cand cands]|];
      [discriminate | apply P, Hc | apply P, Hc]. }
  rewrite Hr, (IH Hcs). reflexivity.
Qed.

End Stream.

(** ** Claims about the prompt builder *)

Lemma endswith_skip (a s suf : string) :
  endswith s suf = true -> endswith (a ++ s) suf = true.
Proof.
  intros H. induction a as [|c a IH]; [exact H|].
  cbn [append endswith]. rewrite IH. now destruct (_ =? _)%string.
Qed.

Lemma legs_instruction_given (legs : string) :
  legs <> "" ->
  legs_instruction legs
  = " IMPORTANT: The table must have exactly " ++ legs ++ " legs.".
Proof.
  intros H. unfold legs_instruction.
  now rewrite (proj2 (truthy_nonempty legs) H).
Qed.

(** C4: for a leg count of 2, 3 or 4 and for both room modes the prompt
    contains the text "exactly N legs"; for an empty leg count the prompt
    has no leg-count clause: it mentions neither "legs" nor "exactly" nor
    "IMPORTANT". *)
Theorem prompt_names_leg_count :
  (forall (with_room : bool) (N : string),
      In N ["2"; "3"; "4"] ->
      contains ("exactly " ++ N ++ " legs")
        (generate_table_prompt with_room N) = true)
  /\ (forall with_room : bool,
         contains "legs" (generate_table_prompt with_room "") = false
         /\ contains "exactly" (generate_table_prompt with_room "") = false
         /\ contains "IMPORTANT" (generate_table_prompt with_room "") = false).
Proof.
  split.
  - intros with_room N HN.
    assert (Hne : N <> "") by (cbn in HN; intuition (subst; discriminate)).
    rewrite prompt_split, (legs_instruction_given N Hne).
    apply contains_skip.
    change (" IMPORTANT: The table must have exactly " ++ N ++ " legs.")
      with (" IMPORTANT: The table must have " ++ "exactly " ++ N ++ " legs.").
    replace ("exactly " ++ N ++ " legs.")
      with (("exactly " ++ N ++ " legs") ++ ".").
    + apply contains_middle.
    + now rewrite !append_assoc.
  - intros [|]; vm_compute; auto.
Qed.

Lemma prompt_names_leg_count_witness :
  In "3" ["2"; "3"; "4"]
  /\ contains "exactly 3 legs" (generate_table_prompt true "3") = true.
Proof.
  assert (H : In "3" ["2"; "3"; "4"]) by (cbn; auto).
  split; [exact H | exact (proj1 prompt_names_leg_count true "3" H)].
Defined.

(** C5 (as stated, refuted): with four legs asked for, neither template
    yields a text that holds the clause "the table must have exactly 4
    legs." letter for letter. *)
Lemma lowercase_clause_absent :
  contains "the table must have exactly 4 legs."
    (generate_table_prompt false "4") = false
  /\ contains "the table must have exactly 4 legs."
       (generate_table_prompt true "4") = false.
Proof. split; vm_compute; reflexivity. Qed.

(** C5 (amended): whenever a leg count N is given, the text of either
    template is followed, as the end of the prompt, by the clause
    " IMPORTANT: The table must have exactly N legs." *)
Theorem leg_clause_appended (with_room : bool) (N : string) :
  N <> "" ->
  generate_table_prompt with_room N
  = template with_room ++ " IMPORTANT: The table must have exactly " ++ N ++ " legs."
  /\ endswith (generate_table_prompt with_room N)
       (" IMPORTANT: The table must have exactly " ++ N ++ " legs.") = true.
Proof.
  intros HN. rewrite prompt_split, (legs_instruction_given N HN).
  split; [reflexivity | apply endswith_append].
Qed.

Lemma leg_clause_appended_witness :
  generate_table_prompt false "4"
  = template false ++ " IMPORTANT: The table must have exactly 4 legs."
  /\ endswith (generate_table_prompt false "4")
       " IMPORTANT: The table must have exactly 4 legs." = true.
Proof.
  apply (leg_clause_appended false "4"). discriminate.
Defined.

(** ** Claims about the response demultiplexer *)

(** C1 (as stated, refuted): with a clock that moves on by a second between
    two readings, the second file of a run is not named after the
    timestamp at the start of the run, whatever its extension. *)
Lemma second_file_not_named_after_start :
  let w0 := empty_world [] in
  let start := int_of (clock Sample.env (ticks w0)) in
  let w1 := snd (_process_api_stream_response Sample.env Sample.two_chunks
                   "output" w0) in
  nth_error (writes (trace w1)) 1
  = Some ("output/remixed_image_1700000001_1.jpg", Sample.jpeg_bytes)
  /\ start = 1700000000%Z
  /\ forall ext : string,
       "output/remixed_image_1700000001_1.jpg"
       <> path_join "output" (spec_file_name start 1 ext).
Proof.
  cbv zeta. split; [vm_compute; reflexivity|].
  split; [vm_compute; reflexivity|].
  intros ext H. vm_compute in H. discriminate H.
Qed.

(** C1 (amended): the k-th file that a run over a response stream writes
    holds the bytes of the k-th image the run reaches and is named
    [remixed_image_<t>_<k><ext>] below the output directory, where [t] is
    the whole-second reading of the clock taken when that part is saved
    (the k-th reading of the run), [k] counts from zero, and [<ext>] is what
    [guess_extension] gives for the reported type of the part, dot
    included. *)
Theorem artifact_named_at_write_time
  (E : Env) (out : string) (s : Stream) (w : World)
  (k : nat) (path : string) (d : bytes) :
  nth_error (writes (trace (snd (_process_api_stream_response E s out w))))
    (length (writes (trace w)) + k) = Some (path, d) ->
  exists m,
    nth_error (fst (reached (chunks s))) k = Some (d, m)
    /\ path = path_join out
                ("remixed_image_" ++ str_int (int_of (clock E (ticks w + k)))
                 ++ "_" ++ str_nat k ++ fmt_opt (guess_extension E m)).
Proof.
  destruct (stream_run E out s w) as (Hw & _).
  rewrite Hw, nth_error_app2 by lia.
  replace (length (writes (trace w)) + k - length (writes (trace w))) with k
    by lia.
  intros H. apply artifacts_nth in H as (m & Hn & ->).
  exists m. split; [exact Hn | reflexivity].
Qed.

Lemma artifact_named_at_write_time_witness :
  exists m,
    nth_error (fst (reached (chunks Sample.two_chunks))) 1
    = Some (Sample.jpeg_bytes, m)
    /\ "output/remixed_image_1700000001_1.jpg"
       = path_join "output"
           ("remixed_image_"
            ++ str_int (int_of (clock Sample.env (ticks (empty_world []) + 1)))
            ++ "_" ++ str_nat 1 ++ fmt_opt (guess_extension Sample.env m)).
Proof.
  apply (artifact_named_at_write_time Sample.env "output" Sample.two_chunks
           (empty_world []) 1).
  vm_compute. reflexivity.
Defined.

(** C2: over a whole stream the file index starts at 0 and goes up by one
    for each image saved, not per chunk and not for text: a run that gets
    past the last chunk ends with the index at the number of images, and
    has written exactly the files of [artifacts] from index 0 on.  For the
    stream of chunk A (the text "hello", then a PNG image) and chunk B (a
    JPEG image), two files are written, the PNG under index 0 and the JPEG
    under index 1, with the extensions of their types, and "hello" is
    printed once and is no file. *)
Theorem index_counts_saved_images :
  (forall (E : Env) (out : string) (cs : list Chunk) (w : World),
      snd (reached cs) = true ->
      let r := process_chunks E out cs 0 w in
      fst r = Ok (length (fst (reached cs)))
      /\ writes (trace (snd r))
         = (writes (trace w)
            ++ artifacts E out (ticks w) 0 (fst (reached cs)))%list
      /\ length (artifacts E out (ticks w) 0 (fst (reached cs)))
         = length (fst (reached cs)))
  /\ (forall (E : Env) (out : string) (w : World) (b1 b2 : byte)
        (png jpeg : bytes),
         guess_extension E "image/png" = Some ".png" ->
         guess_extension E "image/jpeg" = Some ".jpg" ->
         let A := Sample.chunk_of [from_text "hello";
                                   Sample.image_part (b1 :: png) "image/png"] in
         let B := Sample.chunk_of [Sample.image_part (b2 :: jpeg) "image/jpeg"] in
         let r := _process_api_stream_response E (mkStream [A; B] None) out w in
         let name0 :=
           path_join out
             ("remixed_image_" ++ str_int (int_of (clock E (ticks w)))
              ++ "_" ++ "0" ++ ".png") in
         let name1 :=
           path_join out
             ("remixed_image_" ++ str_int (int_of (clock E (S (ticks w))))
              ++ "_" ++ "1" ++ ".jpg") in
         fst r = Ok tt
         /\ writes (trace (snd r))
            = (writes (trace w) ++ [(name0, b1 :: png); (name1, b2 :: jpeg)])%list
         /\ printed (trace (snd r))
            = (printed (trace w)
               ++ ["hello"; ("File saved to: " ++ name0)%string;
                   ("File saved to: " ++ name1)%string])%list).
Proof.
  split.
  - intros E out cs w Hfin. cbv zeta.
    destruct (process_chunks_observes E out cs 0 w) as (Hw & _ & _ & Hf).
    rewrite Hfin in Hf. destruct Hf as [Hr _].
    rewrite artifacts_length. auto.
  - intros E out w b1 b2 png jpeg Hpng Hjpg. cbv zeta.
    unfold _process_api_stream_response.
    repeat first
      [ rewrite process_part_run
      | progress unfold bind, ret
      | progress cbv zeta
      | progress cbn [chunks process_chunks Sample.chunk_of process_chunk
                      candidates first content parts process_parts binary_of
                      from_text Sample.image_part inline_data data mime_type
                      text fs ticks trace failure fst snd] ].
    rewrite Hpng, Hjpg.
    split; [reflexivity|].
    rewrite !writes_app, !printed_app. cbn [writes printed fmt_opt artifact_name].
    rewrite <- !app_assoc. cbn [app].
    split; reflexivity.
Qed.

Lemma index_counts_saved_images_witness :
  let r := _process_api_stream_response Sample.env Sample.two_chunks "output"
             (empty_world []) in
  (fst (process_chunks Sample.env "output" (chunks Sample.two_chunks) 0
          (empty_world [])) = Ok 2
   /\ length (writes (trace (snd r))) = 2)
  /\ fst r = Ok tt
  /\ writes (trace (snd r))
     = [("output/remixed_image_1700000000_0.png", Sample.png_bytes);
        ("output/remixed_image_1700000001_1.jpg", Sample.jpeg_bytes)]
  /\ printed (trace (snd r))
     = ["hello"; "File saved to: output/remixed_image_1700000000_0.png";
        "File saved to: output/remixed_image_1700000001_1.jpg"].
Proof.
  cbv zeta. split.
  - destruct (proj1 index_counts_saved_images Sample.env "output"
                (chunks Sample.two_chunks) (empty_world []) eq_refl)
      as (Hr & _ & _).
    split; [exact Hr | reflexivity].
  - exact (proj2 index_counts_saved_images Sample.env "output" (empty_world [])
             x89 xff [x50; x4e; x47; x0d; x0a; x1a; x0a] [xd8; xff; xe0]
             eq_refl eq_refl).
Defined.

(** C9 (the code at the failing input): a chunk whose list of candidates is
    empty is not passed over; indexing its first candidate raises
    [IndexError], the run over the stream ends there, and nothing of the
    chunks behind it is saved.  In the stream of chunk A, such a chunk and
    chunk B, the PNG image of A is saved and the JPEG image of B is lost. *)
Theorem empty_candidates_raise :
  (forall (E : Env) (out : string) (rest : list Chunk) (f : option exn)
      (i : nat) (w : World),
      process_chunk E out (mkChunk (Some [])) i w
      = (Raised (IndexError "list index out of range"), w)
      /\ _process_api_stream_response E
           (mkStream (mkChunk (Some []) :: rest) f) out w
         = (Raised (IndexError "list index out of range"), w))
  /\ (let r := _process_api_stream_response Sample.env
                 (mkStream [Sample.chunk_A; mkChunk (Some []); Sample.chunk_B]
                    None)
                 "output" (empty_world []) in
      fst r = Raised (IndexError "list index out of range")
      /\ writes (trace (snd r))
         = [("output/remixed_image_1700000000_0.png", Sample.png_bytes)]).
Proof.
  split.
  - intros E out rest f i w. split; reflexivity.
  - vm_compute. split; reflexivity.
Qed.

Lemma path_join_endswith (a b suf : string) :
  endswith b suf = true -> endswith (path_join a b) suf = true.
Proof.
  intros H. unfold path_join.
  destruct (prefix "/" b); [exact H|].
  destruct (a =? "")%string; [exact H|].
  destruct (endswith a "/").
  - now apply endswith_skip.
  - now apply endswith_skip, endswith_skip.
Qed.

(** C10: a part that carries image bytes and reports a type for which
    [guess_extension] knows no extension raises nothing: the bytes are
    written, the index goes up by one, and the name of the file ends in the
    text "None" where the extension would be. *)
Theorem unmapped_type_saved_as_None
  (E : Env) (out : string) (b : byte) (bs : bytes) (m : string)
  (t : option string) (i : nat) (w : World) :
  guess_extension E m = None ->
  let part := mkPart (Some (mkBlob (Some (b :: bs)) (Some m))) t in
  let name :=
    path_join out
      ("remixed_image_" ++ str_int (int_of (clock E (ticks w))) ++ "_"
       ++ str_nat i ++ "None") in
  fst (process_part E out part i w) = Ok (S i)
  /\ writes (trace (snd (process_part E out part i w)))
     = (writes (trace w) ++ [(name, b :: bs)])%list
  /\ fs_lookup (fs (snd (process_part E out part i w))) name = Some (b :: bs)
  /\ endswith name "None" = true.
Proof.
  intros Hm. cbv zeta. rewrite process_part_run.
  cbn [binary_of inline_data data mime_type]. cbv zeta. rewrite Hm.
  cbn [fst snd trace fs artifact_name fmt_opt].
  split; [reflexivity|]. split; [|split].
  - rewrite !writes_app. cbn. now rewrite app_nil_r.
  - apply fs_lookup_store.
  - apply path_join_endswith.
    rewrite <- !append_assoc. apply endswith_append.
Qed.

Lemma unmapped_type_saved_as_None_witness :
  let part :=
    mkPart (Some (mkBlob (Some [x01; x02]) (Some "application/x-unknown")))
           None in
  fst (process_part Sample.env "output" part 0 (empty_world [])) = Ok 1
  /\ writes (trace (snd (process_part Sample.env "output" part 0
                           (empty_world []))))
     = [("output/remixed_image_1700000000_0None", [x01; x02])]
  /\ fs_lookup (fs (snd (process_part Sample.env "output" part 0
                           (empty_world []))))
       "output/remixed_image_1700000000_0None" = Some [x01; x02]
  /\ endswith "output/remixed_image_1700000000_0None" "None" = true.
Proof.
  exact (unmapped_type_saved_as_None Sample.env "output" x01 [x02]
           "application/x-unknown" None 0 (empty_world []) eq_refl).
Defined.

(** ** Claims about the request composer *)

Section Composer.
Variable E : Env.

(** Loading reads and never writes. *)
Lemma load_from_world (paths : list string) :
  forall (acc : list Part) (w : World), snd (load_from E paths acc w) = w.
Proof.
  induction paths as [|p paths IH]; intros acc w; cbn [load_from];
    [reflexivity|].
  unfold bind, read_file, _get_mime_type.
  destruct (fs_lookup (fs w) p); [|reflexivity].
  destruct (guess_type E p); [apply IH | reflexivity].
Qed.

Lemma load_from_loaded (paths : list string) :
  forall (acc : list Part) (w : World),
    (forall p, In p paths -> loaded E (fs w) p <> None) ->
    exists imgs,
      load_from E paths acc w = (Ok (acc ++ imgs)%list, w)
      /\ Forall2 (fun p part => loaded E (fs w) p = Some part) paths imgs.
Proof.
  induction paths as [|p paths IH]; intros acc w Hall; cbn [load_from].
  - exists []. rewrite app_nil_r. split; [reflexivity | constructor].
  - assert (Hp : loaded E (fs w) p <> None) by (apply Hall; now left).
    unfold loaded in Hp. unfold bind, read_file, _get_mime_type.
    destruct (fs_lookup (fs w) p) as [d|] eqn:Hd; [|now elim Hp].
    destruct (guess_type E p) as [m|] eqn:Hm; [|now elim Hp].
    cbn [ret].
    destruct (IH (acc ++ [mkPart (Some (mkBlob (Some d) (Some m))) None])%list
                w) as (imgs & Hrun & Hall2).
    { intros q Hq. apply Hall. now right. }
    exists (mkPart (Some (mkBlob (Some d) (Some m))) None :: imgs).
    split.
    + rewrite Hrun, <- app_assoc. reflexivity.
    + constructor; [|exact Hall2]. unfold loaded. now rewrite Hd, Hm.
Qed.

(** One unresolvable type among the paths makes loading fail: on a file
    that cannot be read, or on a type that cannot be told. *)
Lemma load_from_unresolved (paths : list string) :
  forall (acc : list Part) (w : World),
    (exists p, In p paths /\ guess_type E p = None) ->
    exists q,
      In q paths
      /\ ((fs_lookup (fs w) q = None
           /\ fst (load_from E paths acc w) = Raised (FileNotFoundError q))
          \/ (guess_type E q = None
              /\ fst (load_from E paths acc w)
                 = Raised (ValueError
                             ("Could not determine MIME type for " ++ q)))).
Proof.
  induction paths as [|p paths IH]; intros acc w (p0 & Hin & Hnone).
  - destruct Hin.
  - cbn [load_from]. unfold bind, read_file, _get_mime_type.
    destruct (fs_lookup (fs w) p) as [d|] eqn:Hd.
    + destruct (guess_type E p) as [m|] eqn:Hm.
      * destruct Hin as [->|Hin]; [congruence|].
        destruct (IH (acc ++ [mkPart (Some (mkBlob (Some d) (Some m))) None])%list
                    w) as (q & Hq & Hcase); [eauto|].
        exists q. split; [now right | exact Hcase].
      * exists p. split; [now left|]. right. split; [exact Hm | reflexivity].
    + exists p. split; [now left|]. left. split; [exact Hd | reflexivity].
Qed.

End Composer.

(** C3: when the type of one of the input files cannot be told from its
    name, [remix_images] raises; the world is left as it was, so nothing was
    sent to the service, no stream was read and nothing was written.  With
    the key set and every file readable, the error is the [ValueError] that
    names the file whose type could not be determined: no type is made up. *)
Theorem unresolved_type_fails_before_call
  (E : Env) (paths : list string) (prompt out : string) (w : World) :
  (exists p, In p paths /\ guess_type E p = None) ->
  let r := remix_images E paths prompt out w in
  (exists e, fst r = Raised e)
  /\ snd r = w
  /\ calls (trace (snd r)) = calls (trace w)
  /\ (truthy_opt (environ E "GEMINI_API_KEY") = true ->
      (forall q, In q paths -> fs_lookup (fs w) q <> None) ->
      exists q,
        In q paths /\ guess_type E q = None
        /\ fst r = Raised (ValueError
                             ("Could not determine MIME type for " ++ q))).
Proof.
  intros Hbad. cbv zeta. unfold remix_images.
  destruct (truthy_opt (environ E "GEMINI_API_KEY")) eqn:Hkey; cbn [negb].
  - unfold bind, _load_image_parts.
    pose proof (load_from_world E paths [] w) as Hw.
    destruct (load_from_unresolved E paths [] w Hbad) as (q & Hq & Hcase).
    destruct (load_from E paths [] w) as [[parts|e] w1]; cbn [fst snd] in *.
    + destruct Hcase as [[_ H]|[_ H]]; discriminate H.
    + subst w1. repeat split; eauto.
      intros _ Hread. destruct Hcase as [[Hnone _]|[Hnone He]].
      * elim (Hread q Hq Hnone).
      * injection He as ->. exists q. repeat split; assumption.
  - cbn. repeat split; eauto. discriminate.
Qed.

Lemma unresolved_type_fails_before_call_witness :
  let r := remix_images Sample.env ["vorm/rond.jpeg"; "notes.xyz"]
             "Combine the subjects" "output" (empty_world Sample.files) in
  fst r = Raised (ValueError "Could not determine MIME type for notes.xyz")
  /\ snd r = empty_world Sample.files.
Proof.
  cbv zeta.
  destruct (unresolved_type_fails_before_call Sample.env
              ["vorm/rond.jpeg"; "notes.xyz"] "Combine the subjects" "output"
              (empty_world Sample.files)) as (_ & Hw & _ & Hq).
  - exists "notes.xyz". split; [simpl; auto | reflexivity].
  - split; [|exact Hw].
    destruct Hq as (q & Hin & Hn & Hr); [reflexivity | |].
    + intros q [<-|[<-|[]]]; discriminate.
    + destruct Hin as [<-|[<-|[]]]; [vm_compute in Hn; discriminate Hn|].
      exact Hr.
Defined.

(** C6: with the key set and every input file readable and of a type that
    can be told, [remix_images] on one to five paths sends the service one
    request: one image part for each path, in the order of the paths, each
    with the bytes of its file and the type told from its name, and then
    the prompt as a single text part at the end, one part more than there
    are paths. *)
Theorem request_has_images_then_prompt
  (E : Env) (paths : list string) (prompt out : string) (w : World) :
  1 <= length paths <= 5 ->
  truthy_opt (environ E "GEMINI_API_KEY") = true ->
  (forall p, In p paths -> loaded E (fs w) p <> None) ->
  exists imgs,
    calls (trace (snd (remix_images E paths prompt out w)))
    = (calls (trace w) ++ [(imgs ++ [from_text prompt])%list])%list
    /\ Forall2 (fun p part => loaded E (fs w) p = Some part) paths imgs
    /\ length (imgs ++ [from_text prompt])%list = length paths + 1
    /\ last (imgs ++ [from_text prompt])%list (from_text "") = from_text prompt.
Proof.
  intros _ Hkey Hall. unfold remix_images. rewrite Hkey. cbn [negb].
  unfold bind, _load_image_parts.
  destruct (load_from_loaded E paths [] w Hall) as (imgs & Hrun & Hall2).
  rewrite Hrun. cbn [app print emit generate_content_stream].
  exists imgs.
  match goal with |- context [_process_api_stream_response E ?s out ?w1] =>
    destruct (stream_run E out s w1) as (_ & Hc & _) end.
  rewrite Hc. cbn [trace]. rewrite !calls_app. cbn [calls].
  rewrite app_nil_r, length_app, last_last.
  rewrite (Forall2_length Hall2). cbn [length].
  repeat split. exact Hall2.
Qed.

Lemma request_has_images_then_prompt_witness :
  exists imgs,
    calls (trace (snd (remix_images Sample.env
                         ["vorm/rond.jpeg"; "onderstel/kruis.png";
                          "kleur/eiken.jpg"]
                         (generate_table_prompt false "") "output"
                         (empty_world Sample.files))))
    = [(imgs ++ [from_text (generate_table_prompt false "")])%list]
    /\ imgs = [Sample.image_part [x01] "image/jpeg";
               Sample.image_part [x02] "image/png";
               Sample.image_part [x03] "image/jpeg"]
    /\ length (imgs ++ [from_text (generate_table_prompt false "")])%list = 4.
Proof.
  destruct (request_has_images_then_prompt Sample.env
              ["vorm/rond.jpeg"; "onderstel/kruis.png"; "kleur/eiken.jpg"]
              (generate_table_prompt false "") "output"
              (empty_world Sample.files))
    as (imgs & Hc & Hall & Hlen & _).
  - simpl. lia.
  - reflexivity.
  - intros p [<-|[<-|[<-|[]]]]; vm_compute; discriminate.
  - exists imgs. split; [exact Hc|]. split; [|exact Hlen].
    inversion Hall as [|p1 i1 ps1 is1 H1 Hall1]; subst.
    inversion Hall1 as [|p2 i2 ps2 is2 H2 Hall2]; subst.
    inversion Hall2 as [|p3 i3 ps3 is3 H3 Hall3]; subst.
    inversion Hall3; subst.
    vm_compute in H1, H2, H3.
    injection H1 as <-. injection H2 as <-. injection H3 as <-.
    reflexivity.
Defined.

(** C7 (as stated, refuted): [remix_images] does not count its images.
    Handed six readable images it raises nothing and sends the service a
    request of six image parts and the prompt; handed none, it sends the
    prompt alone. *)
Lemma six_images_are_sent :
  let six := ["vorm/rond.jpeg"; "onderstel/kruis.png"; "kleur/eiken.jpg";
              "kamer.webp"; "vorm/rond.jpeg"; "kleur/eiken.jpg"] in
  let r := remix_images Sample.env six "Combine the subjects" "output"
             (empty_world Sample.files) in
  let r0 := remix_images Sample.env [] "Combine the subjects" "output"
              (empty_world Sample.files) in
  length six = 6
  /\ fst r = Ok tt
  /\ map (@length Part) (calls (trace (snd r))) = [7]
  /\ fst r0 = Ok tt
  /\ calls (trace (snd r0)) = [[from_text "Combine the subjects"]].
Proof. vm_compute. repeat split; reflexivity. Qed.

(** C7 (amended): in the command-line mode of [main], a list of more than
    five images ends the program through [parser.error] (exit status 2)
    before [remix_images] is reached: no request is sent to the service and
    no file is written.  [remix_images] itself does not check the count. *)
Theorem too_many_images_rejected_by_parser
  (E : Env) (args : Args) (paths : list string) (w : World) :
  5 < length paths ->
  let r := main_cli E args paths w in
  fst r = Raised (SystemExit 2
                    "Please provide between 1 and 5 input images using the -i flag.")
  /\ calls (trace (snd r)) = calls (trace w)
  /\ writes (trace (snd r)) = writes (trace w)
  /\ fs (snd r) = fs w.
Proof.
  intros Hlen. cbv zeta. unfold main_cli.
  assert (H3 : (length paths =? 3)%nat = false) by (apply Nat.eqb_neq; lia).
  assert (H5 : (length paths <=? 5)%nat = false) by (apply Nat.leb_gt; lia).
  destruct (truthy_opt (room_image args)).
  - unfold bind at 1. unfold bind at 1. unfold path_exists.
    rewrite H3. cbn [andb negb]. unfold bind, print, emit, ret.
    rewrite H5, andb_false_r. cbn [negb parser_error raise fst snd trace fs].
    rewrite writes_app, calls_app. cbn. now rewrite !app_nil_r.
  - unfold bind, ret. rewrite H5, andb_false_r. cbn. auto.
Qed.

Lemma too_many_images_rejected_by_parser_witness :
  let six := ["vorm/rond.jpeg"; "onderstel/kruis.png"; "kleur/eiken.jpg";
              "kamer.webp"; "vorm/rond.jpeg"; "kleur/eiken.jpg"] in
  let args := mkArgs (Some six) None "output" None None in
  let r := main_cli Sample.env args six (empty_world Sample.files) in
  fst r = Raised (SystemExit 2
                    "Please provide between 1 and 5 input images using the -i flag.")
  /\ calls (trace (snd r)) = []
  /\ writes (trace (snd r)) = []
  /\ fs (snd r) = Sample.files.
Proof.
  cbv zeta.
  apply (too_many_images_rejected_by_parser Sample.env
           (mkArgs (Some ["vorm/rond.jpeg"; "onderstel/kruis.png";
                          "kleur/eiken.jpg"; "kamer.webp"; "vorm/rond.jpeg";
                          "kleur/eiken.jpg"]) None "output" None None)
           ["vorm/rond.jpeg"; "onderstel/kruis.png"; "kleur/eiken.jpg";
            "kamer.webp"; "vorm/rond.jpeg"; "kleur/eiken.jpg"]
           (empty_world Sample.files)).
  simpl. lia.
Defined.

(** ** The generation endpoint *)

Lemma fs_lookup_store_some (files : list (string * bytes)) (p q : string)
  (d : bytes) :
  fs_lookup files q <> None -> fs_lookup (fs_store files p d) q <> None.
Proof.
  intros H. destruct (string_dec q p) as [->|Hne].
  - now rewrite fs_lookup_store.
  - now rewrite fs_lookup_store_other.
Qed.

Lemma glob_remixed_store (dir : string) (files : list (string * bytes))
  (p : string) (d : bytes) :
  Api.remixed_name dir p = None ->
  Api.glob_remixed dir (fs_store files p d) = Api.glob_remixed dir files.
Proof.
  intros Hp. induction files as [|[q d0] files IH];
    cbn [fs_store Api.glob_remixed].
  - now rewrite Hp.
  - destruct (q =? p)%string eqn:Hq; cbn [Api.glob_remixed].
    + apply String.eqb_eq in Hq as ->. reflexivity.
    + now rewrite IH.
Qed.

Lemma strip_prefix_append (a x y : string) :
  Api.strip_prefix (a ++ x) (a ++ y) = Api.strip_prefix x y.
Proof.
  induction a as [|c a IH]; cbn [append Api.strip_prefix]; [reflexivity|].
  now rewrite Ascii.eqb_refl.
Qed.

(** The staged room photo is not taken for a result. *)
Lemma temp_room_not_remixed (dir token : string) :
  Api.remixed_name dir
    (Api.path_div dir ("temp_room_" ++ token ++ ".jpg")) = None.
Proof.
  unfold Api.remixed_name, Api.path_div, path_join.
  cbn [append String.eqb prefix].
  destruct (ascii_dec "/" "t") as [Heq|_]; [discriminate Heq|].
  destruct (dir =? "")%string eqn:Hd.
  - apply String.eqb_eq in Hd as ->. reflexivity.
  - destruct (endswith dir "/"); now rewrite strip_prefix_append.
Qed.

Section NoImage.
Variable E : Env.

(** The service answers with chunks that carry no image, and its stream
    ends without an error. *)
Hypothesis service_sends_no_image :
  forall contents,
    forallb text_only_chunk (chunks (service E MODEL_NAME contents)) = true
    /\ failure (service E MODEL_NAME contents) = None.

Lemma stream_without_image (out : string) (s : Stream) (w : World) :
  forallb text_only_chunk (chunks s) = true ->
  failure s = None ->
  let r := _process_api_stream_response E s out w in
  fst r = Ok tt
  /\ writes (trace (snd r)) = writes (trace w)
  /\ fs (snd r) = fs w.
Proof.
  intros Htext Hfail. cbv zeta.
  destruct (stream_run E out s w) as (Hw & _ & Hs & Hf).
  rewrite (text_only_reached (chunks s) Htext) in *. cbn [fst snd] in *.
  rewrite Hfail in Hf. cbn [artifacts] in Hw. rewrite app_nil_r in Hw.
  auto.
Qed.

Lemma remix_without_image (paths : list string) (prompt out : string)
  (w : World) :
  truthy_opt (environ E "GEMINI_API_KEY") = true ->
  (forall p, In p paths -> loaded E (fs w) p <> None) ->
  let r := remix_images E paths prompt out w in
  fst r = Ok tt
  /\ writes (trace (snd r)) = writes (trace w)
  /\ fs (snd r) = fs w.
Proof.
  intros Hkey Hall. cbv zeta. unfold remix_images. rewrite Hkey. cbn [negb].
  unfold bind, _load_image_parts.
  destruct (load_from_loaded E paths [] w Hall) as (imgs & Hrun & _).
  rewrite Hrun. cbn [app print emit generate_content_stream].
  match goal with |- context [_process_api_stream_response E ?s out ?w1] =>
    destruct (service_sends_no_image (imgs ++ [from_text prompt])%list)
      as [Ht Hf];
    destruct (stream_without_image out s w1 Ht Hf) as (Hr & Hw & Hs) end.
  rewrite Hr, Hw, Hs. cbn [trace fs].
  rewrite !writes_app. cbn. now rewrite !app_nil_r.
Qed.

End NoImage.

Section Endpoint.
Variable E : Env.
Variable H : Api.Host.

Lemma require_all_found (checks : list (string * string)) (w : World) :
  (forall c, In c checks -> fs_lookup (fs w) (fst c) <> None) ->
  Api.require_all checks w = (Ok tt, w).
Proof.
  induction checks as [|[path name] checks IH]; intros Hall;
    cbn [Api.require_all]; [reflexivity|].
  unfold bind, path_exists.
  destruct (fs_lookup (fs w) path) eqn:Hp.
  - cbn [negb]. apply IH. intros c Hc. apply Hall. now right.
  - elim (Hall (path, name)); [now left | exact Hp].
Qed.

Lemma cleanup_returns (room_photo_path : option string) (w : World) :
  exists w', Api.cleanup room_photo_path w = (Ok tt, w').
Proof.
  destruct room_photo_path as [p|]; cbn [Api.cleanup]; [|now exists w].
  unfold bind, path_exists, unlink.
  destruct (fs_lookup (fs w) p) eqn:Hp.
  - rewrite Hp. eauto.
  - now exists w.
Qed.

(** The tail of [generate_table]: the run of [remix_images] has come back
    without an error and the output directory holds no result. *)
Lemma no_result_is_http_500 (room_photo_path : option string)
  (body : M unit) (w w1 : World) :
  body w = (Ok tt, w1) ->
  Api.glob_remixed (Api.OUTPUT_DIR H) (fs w1) = [] ->
  fst (try_except
         (body ;;;
          found <- Api.output_files H ;;
          match found with
          | [] =>
              raise (HTTPException 500
                       "Image generation failed - no output produced")
          | latest_output :: _ =>
              Api.cleanup room_photo_path ;;;
              ret (Api.mkJSONResponse true ("/api/output/" ++ latest_output)
                     latest_output "Table generated successfully")
          end)
         (fun e =>
            Api.cleanup room_photo_path ;;;
            raise (HTTPException 500
                     ("Generation failed: " ++ Api.str_exn e))) w)
  = Raised (HTTPException 500
              "Generation failed: 500: Image generation failed - no output produced").
Proof.
  intros Hbody Hglob. unfold try_except, bind at 1 2.
  rewrite Hbody. unfold Api.output_files. rewrite Hglob.
  cbn [Api.newest_first fold_right raise is_Exception].
  unfold bind. destruct (cleanup_returns room_photo_path w1) as [w2 ->].
  reflexivity.
Qed.

End Endpoint.

Lemma loaded_found (E : Env) (files : list (string * bytes)) (p : string) :
  loaded E files p <> None <->
  fs_lookup files p <> None /\ guess_type E p <> None.
Proof.
  unfold loaded.
  destruct (fs_lookup files p), (guess_type E p); split;
    try intros [? ?]; try intros ?; try split; congruence.
Qed.

(** The endpoint, when the model sends no image and the output directory
    holds no earlier result. *)
Lemma generate_without_image
  (E : Env) (H : Api.Host) (vorm onderstel kleur : string)
  (room_photo : option Api.UploadFile) (w : World) :
  let base := Api.BASE_DIR H in
  let inputs :=
    [Api.path_div (Api.path_div base "vorm") (Api.safe_filename vorm);
     Api.path_div (Api.path_div base "onderstel") (Api.safe_filename onderstel);
     Api.path_div (Api.path_div base "kleur") (Api.safe_filename kleur)] in
  let staged :=
    Api.path_div (Api.OUTPUT_DIR H) ("temp_room_" ++ Api.token_hex H ++ ".jpg") in
  (forall p, In p inputs -> loaded E (fs w) p <> None) ->
  match room_photo with
  | Some file =>
      (Z.of_nat (length (Api.upload file)) <= Api.MAX_FILE_SIZE)%Z
      /\ guess_type E staged <> None
  | None => True
  end ->
  truthy_opt (environ E "GEMINI_API_KEY") = true ->
  (forall contents,
      forallb text_only_chunk (chunks (service E MODEL_NAME contents)) = true
      /\ failure (service E MODEL_NAME contents) = None) ->
  Api.glob_remixed (Api.OUTPUT_DIR H) (fs w) = [] ->
  fst (Api.generate_table E H vorm onderstel kleur room_photo w)
  = Raised (HTTPException 500
              "Generation failed: 500: Image generation failed - no output produced").
Proof.
  cbv zeta. intros Hin Hroom Hkey Hsvc Hglob.
  unfold Api.generate_table. cbv zeta.
  unfold bind at 1. rewrite require_all_found.
  2:{ intros [p n] Hc. cbn [fst]. apply (loaded_found E), Hin.
      destruct Hc as [Hc|[Hc|[Hc|[]]]]; injection Hc as <- _; cbn; auto. }
  destruct room_photo as [file|].
  - destruct Hroom as [Hsize Htype].
    unfold bind at 1. unfold bind at 1. unfold Api.validate_file_size.
    replace (Z.of_nat (length (Api.upload file)) >? Api.MAX_FILE_SIZE)%Z
      with false by (symmetry; rewrite Z.gtb_ltb; apply Z.ltb_ge, Hsize).
    cbn [ret]. unfold bind at 1. cbn [write_file ret fst snd].
    rewrite Hkey. cbn [negb].
    match goal with |- context [remix_images E ?ps ?pr ?o] =>
      match goal with |- fst (try_except _ _ ?w1) = _ =>
        destruct (remix_without_image E Hsvc ps pr o w1 Hkey)
          as (Hr & _ & Hs) end end.
    { cbn [fs]. intros p Hp. apply loaded_found.
      apply in_app_or in Hp as [Hp|[<-|[]]].
      - apply Hin, loaded_found in Hp as [Hf Ht].
        split; [now apply fs_lookup_store_some | exact Ht].
      - split; [now rewrite fs_lookup_store | exact Htype]. }
    cbn [fs] in Hs.
    match goal with |- context [remix_images E ?ps ?pr ?o] =>
      match goal with |- fst (try_except _ _ ?w1) = _ =>
        destruct (remix_images E ps pr o w1) as [[[]|e] w2] eqn:Hrun;
          [|discriminate Hr] end end.
    cbn [snd] in Hs.
    eapply no_result_is_http_500; [exact Hrun|].
    rewrite Hs, glob_remixed_store; [exact Hglob|].
    apply temp_room_not_remixed.
  - unfold bind at 1. cbn [ret fst snd]. rewrite Hkey. cbn [negb].
    destruct (remix_without_image E Hsvc
                [Api.path_div (Api.path_div (Api.BASE_DIR H) "vorm")
                   (Api.safe_filename vorm);
                 Api.path_div (Api.path_div (Api.BASE_DIR H) "onderstel")
                   (Api.safe_filename onderstel);
                 Api.path_div (Api.path_div (Api.BASE_DIR H) "kleur")
                   (Api.safe_filename kleur)]
                (generate_table_prompt false "") (Api.OUTPUT_DIR H) w Hkey Hin)
      as (Hr & _ & Hs).
    match goal with |- context [remix_images E ?ps ?pr ?o] =>
      destruct (remix_images E ps pr o w) as [[[]|e] w2] eqn:Hrun;
        [|discriminate Hr] end.
    cbn [snd] in Hs.
    eapply no_result_is_http_500; [exact Hrun|].
    now rewrite Hs.
Qed.

(** C8 (as stated, refuted): when the model answers with words only, or
    with no chunk at all, the command-line caller gets no error: [main]
    comes back normally, with no file written. *)
Lemma no_image_is_no_error_for_main :
  let args := mkArgs (Some ["vorm/rond.jpeg"]) None "output" None None in
  let r1 := main_cli (Sample.env_with Sample.words_only) args
              ["vorm/rond.jpeg"] (empty_world Sample.files) in
  let r0 := main_cli (Sample.env_with Sample.no_chunks) args
              ["vorm/rond.jpeg"] (empty_world Sample.files) in
  fst r1 = Ok tt /\ writes (trace (snd r1)) = []
  /\ fst r0 = Ok tt /\ writes (trace (snd r0)) = [].
Proof. vm_compute. repeat split; reflexivity. Qed.

(** C8 (amended): for a response stream with no chunk, or whose chunks
    carry no image, the demultiplexer writes no file and ends without an
    error, and so does [remix_images]; no error of its own kind is raised.
    The endpoint [generate_table] then answers with an HTTP error of status
    500, "Generation failed: 500: Image generation failed - no output
    produced", when the output directory holds no file named
    [remixed_image_*]. *)
Theorem no_image_writes_no_file :
  (forall (E : Env) (out : string) (s : Stream) (w : World),
      forallb text_only_chunk (chunks s) = true ->
      failure s = None ->
      let r := _process_api_stream_response E s out w in
      fst r = Ok tt
      /\ writes (trace (snd r)) = writes (trace w)
      /\ fs (snd r) = fs w)
  /\ (forall (E : Env) (paths : list string) (prompt out : string) (w : World),
         (forall contents,
             forallb text_only_chunk (chunks (service E MODEL_NAME contents))
             = true
             /\ failure (service E MODEL_NAME contents) = None) ->
         truthy_opt (environ E "GEMINI_API_KEY") = true ->
         (forall p, In p paths -> loaded E (fs w) p <> None) ->
         let r := remix_images E paths prompt out w in
         fst r = Ok tt /\ writes (trace (snd r)) = writes (trace w))
  /\ (forall (E : Env) (H : Api.Host) (vorm onderstel kleur : string)
        (room_photo : option Api.UploadFile) (w : World),
         (forall contents,
             forallb text_only_chunk (chunks (service E MODEL_NAME contents))
             = true
             /\ failure (service E MODEL_NAME contents) = None) ->
         truthy_opt (environ E "GEMINI_API_KEY") = true ->
         (forall p,
             In p [Api.path_div (Api.path_div (Api.BASE_DIR H) "vorm")
                     (Api.safe_filename vorm);
                   Api.path_div (Api.path_div (Api.BASE_DIR H) "onderstel")
                     (Api.safe_filename onderstel);
                   Api.path_div (Api.path_div (Api.BASE_DIR H) "kleur")
                     (Api.safe_filename kleur)] ->
             loaded E (fs w) p <> None) ->
         match room_photo with
         | Some file =>
             (Z.of_nat (length (Api.upload file)) <= Api.MAX_FILE_SIZE)%Z
             /\ guess_type E
                  (Api.path_div (Api.OUTPUT_DIR H)
                     ("temp_room_" ++ Api.token_hex H ++ ".jpg")) <> None
         | None => True
         end ->
         Api.glob_remixed (Api.OUTPUT_DIR H) (fs w) = [] ->
         fst (Api.generate_table E H vorm onderstel kleur room_photo w)
         = Raised (HTTPException 500
                     "Generation failed: 500: Image generation failed - no output produced")).
Proof.
  split; [|split].
  - intros E out s w. apply stream_without_image.
  - intros E paths prompt out w Hsvc Hkey Hall. cbv zeta.
    destruct (remix_without_image E Hsvc paths prompt out w Hkey Hall)
      as (Hr & Hw & _).
    auto.
  - intros E H vorm onderstel kleur room_photo w Hsvc Hkey Hin Hroom Hglob.
    now apply generate_without_image.
Qed.

Lemma no_image_writes_no_file_witness :
  let E := Sample.env_with Sample.words_only in
  let w := empty_world Sample.server_files in
  (let r := _process_api_stream_response E Sample.words_only "output" w in
   fst r = Ok tt
   /\ writes (trace (snd r)) = writes (trace w)
   /\ fs (snd r) = fs w)
  /\ (let r := remix_images E ["/srv/rauw/vorm/rond.jpeg"] "Combine" "output"
                 w in
      fst r = Ok tt /\ writes (trace (snd r)) = writes (trace w))
  /\ fst (Api.generate_table E Sample.host "rond.jpeg" "kruis.png" "eiken.jpg"
            (Some (Api.mkUploadFile [x09])) w)
     = Raised (HTTPException 500
                 "Generation failed: 500: Image generation failed - no output produced").
Proof.
  cbv zeta. split; [|split].
  - apply (proj1 no_image_writes_no_file
             (Sample.env_with Sample.words_only) "output" Sample.words_only
             (empty_world Sample.server_files)); reflexivity.
  - apply (proj1 (proj2 no_image_writes_no_file)
             (Sample.env_with Sample.words_only)
             ["/srv/rauw/vorm/rond.jpeg"] "Combine" "output"
             (empty_world Sample.server_files)).
    + intros contents. split; reflexivity.
    + reflexivity.
    + intros p [<-|[]]; vm_compute; discriminate.
  - apply (proj2 (proj2 no_image_writes_no_file)
             (Sample.env_with Sample.words_only) Sample.host
             "rond.jpeg" "kruis.png" "eiken.jpg"
             (Some (Api.mkUploadFile [x09]))
             (empty_world Sample.server_files)).
    + intros contents. split; reflexivity.
    + reflexivity.
    + intros p [<-|[<-|[<-|[]]]]; vm_compute; discriminate.
    + split; [vm_compute; discriminate | vm_compute; discriminate].
    + reflexivity.
Defined.

(** The check of the endpoint looks at the whole output directory: with a
    result of an earlier request in it, a run in which the model sends no
    image is answered as a success, with the earlier file. *)
Lemma earlier_result_served_as_success :
  let E := Sample.env_with Sample.words_only in
  let w := empty_world (Sample.server_files ++ [Sample.earlier_result])%list in
  let r := Api.generate_table E Sample.host "rond.jpeg" "kruis.png"
             "eiken.jpg" None w in
  fst r = Ok (Api.mkJSONResponse true
                "/api/output/remixed_image_1690000000_0.png"
                "remixed_image_1690000000_0.png"
                "Table generated successfully")
  /\ writes (trace (snd r)) = [].
Proof. vm_compute. split; reflexivity. Qed.

(** ** Further properties: the files of a run *)

Lemma stored_app (files : list (string * bytes)) (a b : list (string * bytes)) :
  stored files (a ++ b)%list = stored (stored files a) b.
Proof. unfold stored. apply fold_left_app. Qed.

Lemma fs_lookup_stored_other (saved : list (string * bytes)) :
  forall (files : list (string * bytes)) (q : string),
    ~ In q (map fst saved) ->
    fs_lookup (stored files saved) q = fs_lookup files q.
Proof.
  induction saved as [|[p d] saved IH]; intros files q Hq; [reflexivity|].
  cbn [stored fold_left fst snd]. fold (stored (fs_store files p d) saved).
  rewrite IH by (intros Hin; apply Hq; now right).
  apply fs_lookup_store_other. intros ->. apply Hq. now left.
Qed.

Lemma fs_lookup_stored_nodup (saved : list (string * bytes)) :
  forall (files : list (string * bytes)) (k : nat) (p : string) (d : bytes),
    NoDup (map fst saved) ->
    nth_error saved k = Some (p, d) ->
    fs_lookup (stored files saved) p = Some d.
Proof.
  induction saved as [|[p0 d0] saved IH]; intros files k p d Hnd Hk.
  - destruct k; discriminate.
  - cbn [map fst] in Hnd. inversion Hnd as [|? ? Hnotin Hnd']; subst.
    cbn [stored fold_left fst snd]. fold (stored (fs_store files p0 d0) saved).
    destruct k as [|k]; cbn [nth_error] in Hk.
    + injection Hk as -> ->.
      rewrite fs_lookup_stored_other by exact Hnotin.
      apply fs_lookup_store.
    + eapply IH; eassumption.
Qed.

Section RunFiles.
Variable E : Env.
Variable out : string.

Lemma process_parts_fs (ps : list Part) :
  forall (i : nat) (w : World),
    fs (snd (process_parts E out ps i w))
    = stored (fs w) (artifacts E out (ticks w) i (fst (reached_parts ps))).
Proof.
  induction ps as [|p ps IH]; intros i w; cbn [process_parts reached_parts];
    [reflexivity|].
  unfold bind. rewrite process_part_run.
  destruct (binary_of p) as [[d [m|]]|].
  - cbv beta iota zeta. rewrite IH. reflexivity.
  - reflexivity.
  - destruct (text p) as [[|c t]|]; cbv beta iota; rewrite IH; reflexivity.
Qed.

Lemma process_chunk_fs (c : Chunk) (i : nat) (w : World) :
  fs (snd (process_chunk E out c i w))
  = stored (fs w) (artifacts E out (ticks w) i (fst (reached_chunk c))).
Proof.
  destruct c as [[[|[[[[ps|]]|]] cs]|]]; cbn; try reflexivity.
  apply process_parts_fs.
Qed.

Lemma process_chunks_fs (cs : list Chunk) :
  forall (i : nat) (w : World),
    fs (snd (process_chunks E out cs i w))
    = stored (fs w) (artifacts E out (ticks w) i (fst (reached cs))).
Proof.
  induction cs as [|c cs IH]; intros i w; cbn [process_chunks reached];
    [reflexivity|].
  pose proof (process_chunk_observes E out c i w) as Hc.
  pose proof (process_chunk_fs c i w) as Hfs.
  unfold bind. destruct (snd (reached_chunk c)) eqn:Hfin; cbn [fst snd].
  - destruct (process_chunk E out c i w) as [[i1|e] w1];
      destruct Hc as (_ & _ & _ & Hr & Ht); [|discriminate Hr].
    cbn [fst snd] in *. injection Hr as ->.
    rewrite IH, Hfs, Ht, artifacts_app, stored_app. reflexivity.
  - destruct (process_chunk E out c i w) as [[i1|e] w1];
      destruct Hc as (_ & _ & _ & e' & Hr); [discriminate Hr|].
    exact Hfs.
Qed.

Lemma stream_run_fs (s : Stream) (w : World) :
  fs (snd (_process_api_stream_response E s out w))
  = stored (fs w) (artifacts E out (ticks w) 0 (fst (reached (chunks s)))).
Proof.
  unfold _process_api_stream_response, bind.
  pose proof (process_chunks_fs (chunks s) 0 w) as H.
  destruct (process_chunks E out (chunks s) 0 w) as [[i|e] w1];
    cbn [fst snd] in *; [|exact H].
  destruct (failure s); exact H.
Qed.

End RunFiles.

(** ** Further properties: the names of the files *)

Lemma append_cancel_l (a x y : string) : a ++ x = a ++ y -> x = y.
Proof.
  induction a as [|c a IH]; cbn [append]; [auto|].
  intros [= H]. auto.
Qed.

Lemma all_chars_impl (P Q : ascii -> bool) (s : string) :
  (forall c, P c = true -> Q c = true) ->
  all_chars P s = true -> all_chars Q s = true.
Proof.
  intros HPQ. induction s as [|c s IH]; cbn [all_chars]; [auto|].
  intros H. apply andb_prop in H as [Hc Hs].
  now rewrite (HPQ c Hc), IH.
Qed.

(** A string splits in one way only into characters of [P] and a rest that
    does not start with one. *)
Lemma split_unique (P : ascii -> bool) (a : string) :
  forall b x y : string,
    all_chars P a = true -> all_chars P b = true ->
    starts_outside P x = true -> starts_outside P y = true ->
    a ++ x = b ++ y -> a = b /\ x = y.
Proof.
  induction a as [|c a IH]; intros [|d b] x y Ha Hb Hx Hy Heq;
    cbn [append all_chars] in *.
  - auto.
  - subst x. apply andb_prop in Hb as [Hd _].
    cbn [starts_outside] in Hx. now rewrite Hd in Hx.
  - subst y. apply andb_prop in Ha as [Hc _].
    cbn [starts_outside] in Hy. now rewrite Hc in Hy.
  - injection Heq as -> Heq.
    apply andb_prop in Ha as [_ Ha]. apply andb_prop in Hb as [_ Hb].
    destruct (IH b x y Ha Hb Hx Hy Heq) as [-> ->]. auto.
Qed.

Lemma uint_digits (d : Decimal.uint) :
  all_chars is_digit (NilEmpty.string_of_uint d) = true.
Proof. induction d; cbn [NilEmpty.string_of_uint all_chars]; auto. Qed.

Lemma str_nat_digits (n : nat) : all_chars is_digit (str_nat n) = true.
Proof.
  unfold str_nat, NilZero.string_of_uint.
  destruct (Nat.to_uint n) eqn:Hn; try (rewrite <- Hn; apply uint_digits).
  reflexivity.
Qed.

Lemma str_int_no_underscore (z : Z) :
  all_chars (fun c => negb (Ascii.eqb c "_")) (str_int z) = true.
Proof.
  assert (Hd : forall d,
             all_chars (fun c => negb (Ascii.eqb c "_"))
               (NilZero.string_of_uint d) = true).
  { intros d. apply all_chars_impl with (P := is_digit).
    - intros c Hc. destruct (Ascii.eqb_spec c "_") as [->|]; [discriminate Hc|].
      reflexivity.
    - unfold NilZero.string_of_uint.
      destruct d eqn:Hn; try (rewrite <- Hn; apply uint_digits). reflexivity. }
  unfold str_int, NilZero.string_of_int.
  destruct (Z.to_int z) as [d|d]; [apply Hd|].
  cbn [all_chars]. now rewrite Hd.
Qed.

Lemma str_nat_inj (n n' : nat) : str_nat n = str_nat n' -> n = n'.
Proof.
  assert (Hnn : forall k, Nat.to_uint k <> Decimal.Nil).
  { intros k Hk. pose proof (DecimalNat.Unsigned.of_to k) as H.
    rewrite Hk in H. cbn in H. subst k. discriminate Hk. }
  unfold str_nat. intros H.
  apply DecimalNat.Unsigned.to_uint_inj.
  pose proof (NilZero.usu _ (Hnn n)) as Hn.
  pose proof (NilZero.usu _ (Hnn n')) as Hn'.
  rewrite H in Hn. congruence.
Qed.

Lemma fmt_opt_starts_outside (E : Env) (m : string) :
  dotted_extensions E ->
  starts_outside is_digit (fmt_opt (guess_extension E m)) = true.
Proof.
  intros Hdot. destruct (guess_extension E m) as [e|] eqn:He; [|reflexivity].
  apply Hdot in He. destruct e as [|c e]; [reflexivity|].
  cbn [prefix] in He. destruct (ascii_dec "." c) as [<-|]; [reflexivity|].
  discriminate He.
Qed.

(** Two artifacts with the same name have the same index. *)
Lemma artifact_name_index (E : Env) (out : string) (t t' : Z) (i i' : nat)
  (m m' : string) :
  dotted_extensions E ->
  path_join out (artifact_name t i (guess_extension E m))
  = path_join out (artifact_name t' i' (guess_extension E m')) ->
  i = i'.
Proof.
  intros Hdot Heq.
  assert (Hname : artifact_name t i (guess_extension E m)
                  = artifact_name t' i' (guess_extension E m')).
  { revert Heq. unfold path_join, artifact_name. cbn [append prefix].
    destruct (ascii_dec "/" "r") as [Hc|_]; [discriminate Hc|].
    destruct (out =? "")%string; [auto|].
    destruct (endswith out "/"); intros Heq.
    - exact (append_cancel_l out _ _ Heq).
    - apply (append_cancel_l out) in Heq.
      exact (append_cancel_l "/" _ _ Heq). }
  unfold artifact_name in Hname. apply append_cancel_l in Hname.
  apply split_unique
    with (P := fun c => negb (Ascii.eqb c "_")) in Hname
    as [_ Hrest]; try apply str_int_no_underscore; try reflexivity.
  cbn [append] in Hrest. injection Hrest as Hrest.
  apply split_unique with (P := is_digit) in Hrest as [Hi _];
    try apply str_nat_digits; try (apply fmt_opt_starts_outside; exact Hdot).
  now apply str_nat_inj.
Qed.

Lemma artifacts_names (E : Env) (out : string) (images : list (bytes * string)) :
  forall (tick index : nat) (p : string),
    In p (map fst (artifacts E out tick index images)) ->
    exists k m,
      p = path_join out
            (artifact_name (int_of (clock E (tick + k))) (index + k)
               (guess_extension E m)).
Proof.
  induction images as [|[d m] images IH]; intros tick index p Hin;
    cbn [artifacts map fst In] in Hin; [destruct Hin|].
  destruct Hin as [<-|Hin].
  - exists 0, m. now rewrite !Nat.add_0_r.
  - apply IH in Hin as (k & m' & ->). exists (S k), m'.
    now rewrite !Nat.add_succ_r.
Qed.

Lemma artifacts_nodup (E : Env) (out : string)
  (images : list (bytes * string)) :
  dotted_extensions E ->
  forall tick index, NoDup (map fst (artifacts E out tick index images)).
Proof.
  intros Hdot. induction images as [|[d m] images IH]; intros tick index;
    cbn [artifacts map fst]; constructor; [|apply IH].
  intros Hin. apply artifacts_names in Hin as (k & m' & Heq).
  apply artifact_name_index in Heq; [lia | exact Hdot].
Qed.

(** X1: when every extension of the table starts with a dot, the files a run
    writes have pairwise different names, so no image of a run overwrites
    another one of the same run: at the end of the run each written name
    holds the bytes written under it, whatever was there before. *)
Theorem run_keeps_every_image
  (E : Env) (out : string) (s : Stream) (w : World) :
  dotted_extensions E ->
  let w' := snd (_process_api_stream_response E s out w) in
  exists saved,
    writes (trace w') = (writes (trace w) ++ saved)%list
    /\ length saved = length (fst (reached (chunks s)))
    /\ NoDup (map fst saved)
    /\ forall k path d,
         nth_error saved k = Some (path, d) ->
         fs_lookup (fs w') path = Some d.
Proof.
  intros Hdot. cbv zeta.
  exists (artifacts E out (ticks w) 0 (fst (reached (chunks s)))).
  destruct (stream_run E out s w) as (Hw & _).
  split; [exact Hw|]. split; [apply artifacts_length|].
  split; [now apply artifacts_nodup|].
  intros k path d Hk. rewrite stream_run_fs.
  eapply fs_lookup_stored_nodup; [now apply artifacts_nodup | exact Hk].
Qed.

Lemma sample_extensions_dotted : dotted_extensions Sample.env.
Proof.
  intros m e. cbn [guess_extension Sample.env Sample.env_with].
  unfold Sample.guess_extension.
  repeat match goal with
         | |- (if ?b then _ else _) = _ -> _ => destruct b
         end; intros [= <-]; reflexivity.
Qed.

Lemma run_keeps_every_image_witness :
  exists saved,
    writes (trace (snd (_process_api_stream_response Sample.env
                          Sample.two_chunks "output" (empty_world []))))
    = saved
    /\ length saved = 2
    /\ NoDup (map fst saved).
Proof.
  destruct (run_keeps_every_image Sample.env "output" Sample.two_chunks
              (empty_world []) sample_extensions_dotted)
    as (saved & Hw & Hlen & Hnd & _).
  exists saved. split; [exact Hw|]. split; [exact Hlen | exact Hnd].
Defined.

(** X2: a run touches no file but those it writes: a path that is not the
    name of a file written by the run holds after the run what it held
    before (nothing is deleted, nothing else is changed). *)
Theorem run_leaves_other_files
  (E : Env) (out : string) (s : Stream) (w : World) (q : string) :
  let w' := snd (_process_api_stream_response E s out w) in
  ~ In q (map fst (skipn (length (writes (trace w))) (writes (trace w')))) ->
  fs_lookup (fs w') q = fs_lookup (fs w) q.
Proof.
  cbv zeta. destruct (stream_run E out s w) as (Hw & _).
  rewrite Hw, skipn_app, skipn_all, Nat.sub_diag. cbn [app skipn].
  intros Hq. rewrite stream_run_fs. now apply fs_lookup_stored_other.
Qed.

Lemma run_leaves_other_files_witness :
  fs_lookup (fs (snd (_process_api_stream_response Sample.env
                        Sample.two_chunks "output"
                        (empty_world Sample.files))))
    "vorm/rond.jpeg"
  = Some [x01].
Proof.
  rewrite (run_leaves_other_files Sample.env "output" Sample.two_chunks
             (empty_world Sample.files) "vorm/rond.jpeg").
  - reflexivity.
  - vm_compute. intros [H|[H|[]]]; discriminate H.
Defined.

(** X3: an error of the stream that comes after its last chunk does not
    undo anything: the run raises that error, and every image of the chunks
    has been written and is still there. *)
Theorem stream_error_keeps_files
  (E : Env) (out : string) (s : Stream) (e : exn) (w : World) :
  failure s = Some e ->
  snd (reached (chunks s)) = true ->
  let r := _process_api_stream_response E s out w in
  fst r = Raised e
  /\ writes (trace (snd r))
     = (writes (trace w)
        ++ artifacts E out (ticks w) 0 (fst (reached (chunks s))))%list
  /\ fs (snd r)
     = stored (fs w) (artifacts E out (ticks w) 0 (fst (reached (chunks s)))).
Proof.
  intros Hfail Hfin. cbv zeta.
  destruct (stream_run E out s w) as (Hw & _ & _ & Hr).
  rewrite Hfin, Hfail in Hr.
  split; [exact Hr|]. split; [exact Hw | apply stream_run_fs].
Qed.

Lemma stream_error_keeps_files_witness :
  let s := mkStream [Sample.chunk_A; Sample.chunk_B]
             (Some (APIError "connection reset")) in
  let r := _process_api_stream_response Sample.env s "output" (empty_world []) in
  fst r = Raised (APIError "connection reset")
  /\ map fst (writes (trace (snd r)))
     = ["output/remixed_image_1700000000_0.png";
        "output/remixed_image_1700000001_1.jpg"].
Proof.
  cbv zeta.
  destruct (stream_error_keeps_files Sample.env "output"
              (mkStream [Sample.chunk_A; Sample.chunk_B]
                 (Some (APIError "connection reset")))
              (APIError "connection reset") (empty_world []) eq_refl eq_refl)
    as (Hr & Hw & _).
  split; [exact Hr | rewrite Hw; reflexivity].
Defined.

(** ** Further properties: the request composer and the command line *)

Lemma loaded_image_parts (E : Env) (files : list (string * bytes))
  (paths : list string) (imgs : list Part) :
  Forall2 (fun p part => loaded E files p = Some part) paths imgs ->
  imgs = image_parts E files paths.
Proof.
  induction 1 as [|p part paths imgs Hp _ IH]; cbn [image_parts];
    [reflexivity|].
  now rewrite Hp, IH.
Qed.

Lemma image_parts_length (E : Env) (files : list (string * bytes))
  (paths : list string) :
  (forall p, In p paths -> loaded E files p <> None) ->
  length (image_parts E files paths) = length paths.
Proof.
  induction paths as [|p paths IH]; intros Hall; cbn [image_parts length];
    [reflexivity|].
  destruct (loaded E files p) eqn:Hp.
  - cbn [length]. rewrite IH; [reflexivity|]. intros q Hq. apply Hall. now right.
  - elim (Hall p); [now left | exact Hp].
Qed.

(** The one request of a run of [remix_images] whose files all load. *)
Lemma remix_request (E : Env) (paths : list string) (prompt out : string)
  (w : World) :
  truthy_opt (environ E "GEMINI_API_KEY") = true ->
  (forall p, In p paths -> loaded E (fs w) p <> None) ->
  calls (trace (snd (remix_images E paths prompt out w)))
  = (calls (trace w)
     ++ [(image_parts E (fs w) paths ++ [from_text prompt])%list])%list.
Proof.
  intros Hkey Hall. unfold remix_images. rewrite Hkey. cbn [negb].
  unfold bind, _load_image_parts.
  destruct (load_from_loaded E paths [] w Hall) as (imgs & Hrun & Hall2).
  rewrite Hrun. cbn [app print emit generate_content_stream].
  apply loaded_image_parts in Hall2 as ->.
  match goal with |- context [_process_api_stream_response E ?s out ?w1] =>
    destruct (stream_run E out s w1) as (_ & Hc & _) end.
  rewrite Hc. cbn [trace]. rewrite !calls_app. cbn [calls].
  now rewrite app_nil_r.
Qed.

(** The command-line mode, as a decision followed by one call of
    [remix_images]. *)
Lemma main_cli_run (E : Env) (args : Args) (paths : list string) (w : World) :
  let staged := staged_paths (fs w) args paths in
  let w1 := mkWorld (fs w) (ticks w)
              (trace w ++ stage_lines (fs w) args paths)%list in
  main_cli E args paths w
  = if (1 <=? length staged)%nat && (length staged <=? 5)%nat
    then remix_images E staged (final_prompt args (length staged))
           (output_dir args) w1
    else (Raised (SystemExit 2
                    "Please provide between 1 and 5 input images using the -i flag."),
          w1).
Proof.
  cbv zeta. unfold main_cli, staged_paths, stage_lines, final_prompt, room_given.
  destruct w as [files t tr]. cbn [fs ticks trace].
  destruct (room_image args) as [[|c r]|]; cbn [truthy_opt truthy String.eqb negb].
  - unfold bind at 1. cbn [ret]. rewrite app_nil_r.
    destruct (_ && _); reflexivity.
  - unfold bind at 1. unfold bind at 1. unfold path_exists. cbn [fs fmt_opt].
    destruct (length paths =? 3)%nat eqn:H3; cbn [andb negb].
    + destruct (fs_lookup files (String c r)); cbn [negb];
        unfold bind, print, emit, ret; cbn [fs ticks trace];
        destruct (_ && _); reflexivity.
    + unfold bind, print, emit, ret. cbn [fs ticks trace].
      destruct (_ && _); reflexivity.
  - unfold bind at 1. cbn [ret]. rewrite app_nil_r.
    destruct (_ && _); reflexivity.
Qed.

Lemma calls_stage_lines (files : list (string * bytes)) (args : Args)
  (paths : list string) :
  calls (stage_lines files args paths) = [].
Proof.
  unfold stage_lines. destruct (room_image args) as [[|c r]|]; try reflexivity.
  destruct (negb _); [reflexivity|].
  destruct (fs_lookup files (String c r)); reflexivity.
Qed.












(** X7: the leg count of the command line changes a run only when three
    images are sent, or four with a room image named: with any other number
    of images, two command lines that differ in [--legs] alone run alike. *)
Theorem legs_ignored_elsewhere
  (E : Env) (im : option (list string)) (pr : option string) (od : string)
  (ro lg lg' : option string) (paths : list string) (w : World) :
  let n := length (staged_paths (fs w) (mkArgs im pr od ro lg) paths) in
  n <> 3 ->
  ~ (n = 4 /\ truthy_opt ro = true) ->
  main_cli E (mkArgs im pr od ro lg) paths w
  = main_cli E (mkArgs im pr od ro lg') paths w.
Proof.
  cbv zeta. intros H3 H4. rewrite !main_cli_run. cbv zeta.
  change (staged_paths (fs w) (mkArgs im pr od ro lg') paths)
    with (staged_paths (fs w) (mkArgs im pr od ro lg) paths).
  change (stage_lines (fs w) (mkArgs im pr od ro lg') paths)
    with (stage_lines (fs w) (mkArgs im pr od ro lg) paths).
  set (n := length (staged_paths (fs w) (mkArgs im pr od ro lg) paths)) in *.
  assert (Hp : final_prompt (mkArgs im pr od ro lg) n
               = final_prompt (mkArgs im pr od ro lg') n).
  { unfold final_prompt, room_given. cbn [prompt room_image].
    destruct pr; [reflexivity|].
    destruct (n =? 4)%nat eqn:E4.
    - apply Nat.eqb_eq in E4.
      destruct (truthy_opt ro) eqn:Hro; [elim H4; auto|].
      cbn [andb]. destruct (n =? 3)%nat eqn:E3;
        [apply Nat.eqb_eq in E3; lia | reflexivity].
    - cbn [andb]. destruct (n =? 3)%nat eqn:E3;
        [apply Nat.eqb_eq in E3; lia | reflexivity]. }
  rewrite Hp. reflexivity.
Qed.

Lemma legs_ignored_elsewhere_witness :
  main_cli Sample.env
    (mkArgs (Some ["vorm/rond.jpeg"; "kleur/eiken.jpg"]) None "output" None
            (Some "4"))
    ["vorm/rond.jpeg"; "kleur/eiken.jpg"] (empty_world Sample.files)
  = main_cli Sample.env
      (mkArgs (Some ["vorm/rond.jpeg"; "kleur/eiken.jpg"]) None "output" None
              None)
      ["vorm/rond.jpeg"; "kleur/eiken.jpg"] (empty_world Sample.files).
Proof.
  apply (legs_ignored_elsewhere Sample.env
           (Some ["vorm/rond.jpeg"; "kleur/eiken.jpg"]) None "output" None
           (Some "4") None ["vorm/rond.jpeg"; "kleur/eiken.jpg"]
           (empty_world Sample.files)).
  - simpl. lia.
  - simpl. lia.
Defined.




(** ** Further properties: what a run prints *)

Section RunLines.
Variable E : Env.
Variable out : string.

Lemma process_parts_lines (ps : list Part) :
  forall (i : nat) (w : World),
    printed (trace (snd (process_parts E out ps i w)))
    = (printed (trace w) ++ lines_of_parts E out (ticks w) i ps)%list.
Proof.
  induction ps as [|p ps IH]; intros i w;
    cbn [process_parts lines_of_parts].
  - cbn. now rewrite app_nil_r.
  - unfold bind, lines_of_part. rewrite process_part_run.
    destruct (binary_of p) as [[d [m|]]|]; cbv beta iota zeta.
    + rewrite IH. cbn [trace ticks]. rewrite !printed_app. cbn [printed app].
      now rewrite app_nil_r, <- app_assoc.
    + cbn. now rewrite app_nil_r.
    + destruct (text p) as [[|c t]|]; cbv beta iota; rewrite IH;
        try reflexivity.
      cbn [trace ticks]. rewrite printed_app. cbn [printed].
      now rewrite <- app_assoc.
Qed.

Lemma process_chunks_lines (cs : list Chunk) :
  forall (i : nat) (w : World),
    printed (trace (snd (process_chunks E out cs i w)))
    = (printed (trace w) ++ lines_of_chunks E out (ticks w) i cs)%list.
Proof.
  induction cs as [|c cs IH]; intros i w;
    cbn [process_chunks lines_of_chunks].
  - cbn. now rewrite app_nil_r.
  - pose proof (process_chunk_observes E out c i w) as Hc.
    assert (Hl : printed (trace (snd (process_chunk E out c i w)))
                 = (printed (trace w)
                    ++ match candidates c with
                       | Some [] => []
                       | _ => lines_of_parts E out (ticks w) i (usable_parts c)
                       end)%list).
    { destruct c as [[[|[[[[ps|]]|]] cands]|]]; cbn;
        rewrite ?app_nil_r; try reflexivity.
      apply process_parts_lines. }
    unfold bind. unfold reached_chunk in Hc.
    destruct (candidates c) as [[|cand cands]|] eqn:Hcand.
    + destruct (process_chunk E out c i w) as [[i1|e] w1];
        destruct Hc as (_ & _ & _ & e' & Hr); [discriminate Hr | exact Hl].
    + destruct (snd (reached_parts (usable_parts c))) eqn:Hfin.
      * destruct (process_chunk E out c i w) as [[i1|e] w1];
          destruct Hc as (_ & _ & _ & Hr & Ht); [|discriminate Hr].
        cbn [fst snd] in *. injection Hr as ->.
        rewrite IH, Hl, Ht, <- app_assoc. reflexivity.
      * destruct (process_chunk E out c i w) as [[i1|e] w1];
          destruct Hc as (_ & _ & _ & e' & Hr); [discriminate Hr|].
        cbn [snd] in *. now rewrite Hl, app_nil_r.
    + destruct (snd (reached_parts (usable_parts c))) eqn:Hfin.
      * destruct (process_chunk E out c i w) as [[i1|e] w1];
          destruct Hc as (_ & _ & _ & Hr & Ht); [|discriminate Hr].
        cbn [fst snd] in *. injection Hr as ->.
        rewrite IH, Hl, Ht, <- app_assoc. reflexivity.
      * destruct (process_chunk E out c i w) as [[i1|e] w1];
          destruct Hc as (_ & _ & _ & e' & Hr); [discriminate Hr|].
        cbn [snd] in *. now rewrite Hl, app_nil_r.
Qed.

Lemma stream_lines (s : Stream) (w : World) :
  printed (trace (snd (_process_api_stream_response E s out w)))
  = (printed (trace w) ++ lines_of_chunks E out (ticks w) 0 (chunks s))%list.
Proof.
  unfold _process_api_stream_response, bind.
  pose proof (process_chunks_lines (chunks s) 0 w) as H.
  destruct (process_chunks E out (chunks s) 0 w) as [[i|e] w1];
    cbn [snd] in *; [|exact H].
  destruct (failure s); exact H.
Qed.

End RunLines.

Lemma text_only_parts_lines (E : Env) (out : string) (ps : list Part) :
  forall tick index,
    forallb (fun p => match binary_of p with
                      | None => true
                      | Some _ => false
                      end) ps = true ->
    lines_of_parts E out tick index ps = flat_map texts_of_part ps
    /\ reached_parts ps = ([], true).
Proof.
  induction ps as [|p ps IH]; intros tick index Hall;
    cbn [lines_of_parts flat_map forallb reached_parts] in *; [auto|].
  unfold lines_of_part, texts_of_part.
  destruct (binary_of p); [discriminate Hall|].
  destruct (IH tick index Hall) as [-> ->]. auto.
Qed.

(** X9: for a stream whose chunks carry no image, a run prints the
    non-empty texts of the parts, each once and in the order of the stream,
    and nothing else. *)
Theorem texts_printed_in_order
  (E : Env) (out : string) (s : Stream) (w : World) :
  forallb text_only_chunk (chunks s) = true ->
  printed (trace (snd (_process_api_stream_response E s out w)))
  = (printed (trace w) ++ texts_of (chunks s))%list.
Proof.
  intros Hall. rewrite stream_lines. f_equal.
  generalize (ticks w), 0. revert Hall.
  induction (chunks s) as [|c cs IH]; intros Hall tick index;
    cbn [lines_of_chunks texts_of flat_map forallb] in *; [reflexivity|].
  apply andb_prop in Hall as [Hc Hcs]. unfold text_only_chunk in Hc.
  destruct (candidates c) as [[|cand cands]|] eqn:Hcand; [discriminate Hc| |];
    destruct (text_only_parts_lines E out (usable_parts c) tick index Hc)
      as [-> ->];
    cbn [fst snd length]; rewrite !Nat.add_0_r; f_equal; apply IH, Hcs.
Qed.

Lemma texts_printed_in_order_witness :
  printed (trace (snd (_process_api_stream_response Sample.env
                         (mkStream [Sample.chunk_of [from_text "one";
                                                     from_text "";
                                                     from_text "two"];
                                    mkChunk None;
                                    Sample.chunk_of [from_text "three"]] None)
                         "output" (empty_world []))))
  = ["one"; "two"; "three"].
Proof.
  rewrite texts_printed_in_order; reflexivity.
Defined.

(** X10: the text of a part that carries an image is never printed: for a
    stream whose parts all carry an image of a reported type, a run prints
    one "File saved to" line for each file it writes, in order, and nothing
    else, whatever texts the parts hold. *)
Theorem image_part_text_dropped
  (E : Env) (out : string) (s : Stream) (w : World) :
  (forall c, In c (chunks s) -> candidates c <> Some []) ->
  (forall c p, In c (chunks s) -> In p (usable_parts c) ->
               exists d m, binary_of p = Some (d, Some m)) ->
  let w' := snd (_process_api_stream_response E s out w) in
  printed (trace w')
  = (printed (trace w)
     ++ map saved_line
          (skipn (length (writes (trace w))) (writes (trace w'))))%list.
Proof.
  intros Hcand Hparts. cbv zeta.
  destruct (stream_run E out s w) as (Hw & _).
  rewrite Hw, skipn_app, skipn_all, Nat.sub_diag. cbn [app skipn].
  rewrite stream_lines. f_equal. clear Hw.
  assert (P : forall ps tick index,
             (forall p, In p ps -> exists d m, binary_of p = Some (d, Some m)) ->
             lines_of_parts E out tick index ps
             = map saved_line (artifacts E out tick index (fst (reached_parts ps)))
             /\ snd (reached_parts ps) = true).
  { induction ps as [|p ps IH]; intros tick index Hps;
      cbn [lines_of_parts reached_parts]; [auto|].
    destruct (Hps p) as (d & m & Hp); [now left|].
    unfold lines_of_part. rewrite Hp. cbn [fst snd artifacts map app].
    destruct (IH (S tick) (S index)) as [-> ->];
      [intros q Hq; apply Hps; now right|].
    auto. }
  generalize (ticks w), 0. revert Hcand Hparts.
  induction (chunks s) as [|c cs IH]; intros Hcand Hparts tick index;
    cbn [lines_of_chunks reached]; [reflexivity|].
  unfold reached_chunk.
  assert (Hc : candidates c <> Some []) by (apply Hcand; now left).
  destruct (P (usable_parts c) tick index) as [Hl Hfin];
    [intros p Hp; apply (Hparts c p); [now left | exact Hp]|].
  assert (Hrest : lines_of_chunks E out
                    (tick + length (fst (reached_parts (usable_parts c))))
                    (index + length (fst (reached_parts (usable_parts c)))) cs
                  = map saved_line
                      (artifacts E out
                         (tick + length (fst (reached_parts (usable_parts c))))
                         (index + length (fst (reached_parts (usable_parts c))))
                         (fst (reached cs)))).
  { apply IH.
    - intros c0 Hc0. apply Hcand. now right.
    - intros c0 p Hc0. apply Hparts. now right. }
  destruct (candidates c) as [[|cand cands]|]; [now elim Hc| |];
    rewrite Hfin, Hl, Hrest; cbn [fst snd];
    now rewrite artifacts_app, map_app.
Qed.

Lemma image_part_text_dropped_witness :
  printed (trace (snd (_process_api_stream_response Sample.env
                         (mkStream
                            [Sample.chunk_of
                               [mkPart (Some (mkBlob (Some Sample.png_bytes)
                                                     (Some "image/png")))
                                       (Some "a caption")]] None)
                         "output" (empty_world []))))
  = ["File saved to: output/remixed_image_1700000000_0.png"].
Proof.
  rewrite image_part_text_dropped.
  - reflexivity.
  - intros c [<-|[]]. discriminate.
  - intros c p [<-|[]] [<-|[]]. eexists _, _. reflexivity.
Defined.

(** ** Further properties: names of files in the endpoints *)

Lemma contains_slash (s : string) :
  contains "/" s = negb (all_chars not_slash s).
Proof.
  induction s as [|c s IH]; [reflexivity|].
  cbn [contains prefix all_chars]. unfold not_slash at 1.
  destruct (ascii_dec "/" c) as [<-|Hne].
  - cbn. now destruct s.
  - rewrite IH. destruct (Ascii.eqb_spec c "/") as [->|_]; [now elim Hne|].
    reflexivity.
Qed.

Lemma all_chars_app (P : ascii -> bool) (a b : string) :
  all_chars P (a ++ b) = all_chars P a && all_chars P b.
Proof.
  induction a as [|c a IH]; cbn [append all_chars]; [reflexivity|].
  now rewrite IH, andb_assoc.
Qed.

Lemma components_no_slash (s : string) :
  forall cur x,
    all_chars not_slash cur = true ->
    In x (Api.components s cur) -> all_chars not_slash x = true.
Proof.
  induction s as [|c s IH]; intros cur x Hcur; cbn [Api.components].
  - intros [<-|[]]. exact Hcur.
  - destruct (Ascii.eqb c "/") eqn:Hc.
    + intros [<-|Hin]; [exact Hcur | now apply (IH "" x)].
    + apply IH. rewrite all_chars_app, Hcur. cbn [all_chars].
      unfold not_slash. now rewrite Hc.
Qed.

Lemma components_plain (s : string) :
  forall cur, all_chars not_slash s = true ->
              Api.components s cur = [cur ++ s].
Proof.
  induction s as [|c s IH]; intros cur Hs; cbn [Api.components all_chars] in *.
  - destruct cur; cbn; [reflexivity|]. f_equal. f_equal.
    clear. induction cur as [|d cur IH]; cbn; [reflexivity | now rewrite <- IH].
  - apply andb_prop in Hs as [Hc Hs]. unfold not_slash in Hc.
    destruct (Ascii.eqb c "/"); [discriminate Hc|].
    rewrite IH by exact Hs. now rewrite append_assoc.
Qed.

Lemma last_in_or_default {A} (l : list A) (d : A) :
  last l d = d \/ In (last l d) l.
Proof.
  induction l as [|x l IH]; [now left|].
  destruct l as [|y l]; [right; now left|].
  destruct IH as [IH|IH]; [left | right; right]; exact IH.
Qed.

Lemma safe_filename_plain (name : string) :
  all_chars not_slash name = true -> name <> "" -> name <> "." ->
  Api.safe_filename name = name.
Proof.
  intros Hs Hne Hnd. unfold Api.safe_filename.
  rewrite components_plain by exact Hs. cbn [append filter].
  destruct (name =? "")%string eqn:H1; [apply String.eqb_eq in H1; contradiction|].
  destruct (name =? ".")%string eqn:H2; [apply String.eqb_eq in H2; contradiction|].
  reflexivity.
Qed.

Lemma safe_filename_bare (filename : string) :
  all_chars not_slash (Api.safe_filename filename) = true
  /\ Api.safe_filename filename <> ".".
Proof.
  unfold Api.safe_filename.
  destruct (last_in_or_default
              (filter (fun c => negb ((c =? "") || (c =? "."))%string)
                      (Api.components filename "")) "") as [->|Hin].
  - split; [reflexivity | discriminate].
  - apply filter_In in Hin as [Hin Hkeep]. split.
    + now apply (components_no_slash filename "" _ eq_refl).
    + intros Heq. rewrite Heq in Hkeep. discriminate Hkeep.
Qed.

(** X11: [safe_filename] gives a bare name: whatever the input, the result
    holds no slash and is not ".", applying it again changes nothing, and a
    name that is one component already comes back as it is. *)
Theorem safe_filename_is_a_bare_name :
  (forall filename,
      contains "/" (Api.safe_filename filename) = false
      /\ Api.safe_filename filename <> "."
      /\ Api.safe_filename (Api.safe_filename filename)
         = Api.safe_filename filename)
  /\ (forall name,
         contains "/" name = false -> name <> "" -> name <> "." ->
         Api.safe_filename name = name).
Proof.
  split.
  - intros filename. destruct (safe_filename_bare filename) as [Hs Hd].
    split; [now rewrite contains_slash, Hs|]. split; [exact Hd|].
    destruct (string_dec (Api.safe_filename filename) "") as [->|Hne];
      [reflexivity | now apply safe_filename_plain].
  - intros name Hs Hne Hnd. apply safe_filename_plain; try assumption.
    rewrite contains_slash in Hs. now destruct (all_chars not_slash name).
Qed.

Lemma safe_filename_is_a_bare_name_witness :
  Api.safe_filename "../../etc/passwd" = "passwd"
  /\ Api.safe_filename "rond.jpeg" = "rond.jpeg".
Proof.
  split; [reflexivity|].
  apply (proj2 safe_filename_is_a_bare_name "rond.jpeg");
    [reflexivity | discriminate | discriminate].
Defined.

Lemma endswith_slash_app (a c : string) :
  c <> "" -> endswith (a ++ c) "/" = endswith c "/".
Proof.
  intros Hc. induction a as [|x a IH]; [reflexivity|].
  cbn [append endswith]. rewrite IH.
  assert (Hne : (String x (a ++ c) =? "/")%string = false).
  { apply String.eqb_neq. intros [= _ Hac].
    destruct a; [cbn in Hac; contradiction | discriminate Hac]. }
  now rewrite Hne.
Qed.

(** Joining a directory and a relative name that does not end in a slash
    gives a path that is not empty and does not end in a slash. *)
Lemma path_join_proper (a b : string) :
  b <> "" -> prefix "/" b = false -> endswith b "/" = false ->
  path_join a b <> "" /\ endswith (path_join a b) "/" = false.
Proof.
  intros Hb Hrel Hend. unfold path_join. rewrite Hrel.
  assert (Happ : forall x, x ++ b <> "").
  { intros [|c x]; [exact Hb | discriminate]. }
  destruct (a =? "")%string; [auto|].
  destruct (endswith a "/").
  - split; [apply Happ | now rewrite endswith_slash_app].
  - rewrite <- append_assoc.
    split; [apply Happ | now rewrite endswith_slash_app].
Qed.

Lemma child_path (dir name : string) :
  dir <> "" -> endswith dir "/" = false ->
  name <> "" -> prefix "/" name = false ->
  Api.path_div dir name = dir ++ "/" ++ name.
Proof.
  intros Hd Hend Hn Hrel. unfold Api.path_div, path_join.
  destruct (name =? "")%string eqn:H1; [apply String.eqb_eq in H1; contradiction|].
  destruct (dir =? "")%string eqn:H2; [apply String.eqb_eq in H2; contradiction|].
  now rewrite Hrel, Hend.
Qed.

Lemma output_dir_proper (H : Api.Host) :
  Api.OUTPUT_DIR H <> "" /\ endswith (Api.OUTPUT_DIR H) "/" = false.
Proof.
  unfold Api.OUTPUT_DIR, Api.path_div. cbn [String.eqb Ascii.eqb Bool.eqb].
  apply path_join_proper; [discriminate | reflexivity | reflexivity].
Qed.

Lemma prefix_not_slash (name : string) :
  contains "/" name = false -> prefix "/" name = false.
Proof.
  destruct name as [|c name]; [reflexivity|]. cbn [contains].
  now destruct (prefix "/" (String c name)).
Qed.

Lemma strip_prefix_some (pre s r : string) :
  Api.strip_prefix pre s = Some r -> s = pre ++ r.
Proof.
  revert s. induction pre as [|c pre IH]; intros s; cbn [Api.strip_prefix].
  - now intros [= ->].
  - destruct s as [|d s]; [discriminate|].
    destruct (Ascii.eqb_spec c d) as [->|]; [|discriminate].
    intros Hs. cbn [append]. f_equal. now apply IH.
Qed.

Lemma fs_lookup_in (files : list (string * bytes)) (p : string) (d : bytes) :
  In (p, d) files -> fs_lookup files p <> None.
Proof.
  induction files as [|[q d0] files IH]; [intros []|].
  cbn [fs_lookup]. intros [[= -> ->]|Hin].
  - now rewrite String.eqb_refl.
  - destruct (q =? p)%string; [discriminate | now apply IH].
Qed.

Lemma remixed_name_some (dir p name : string) :
  Api.remixed_name dir p = Some name ->
  p = dir ++ "/" ++ name
  /\ prefix "remixed_image_" name = true
  /\ contains "/" name = false.
Proof.
  unfold Api.remixed_name.
  destruct (Api.strip_prefix (dir ++ "/") p) as [n|] eqn:Hs; [|discriminate].
  destruct (prefix "remixed_image_" n) eqn:Hp; [|discriminate].
  destruct (contains "/" n) eqn:Hc; [discriminate|].
  cbn. intros [= <-]. apply strip_prefix_some in Hs.
  rewrite append_assoc in Hs. auto.
Qed.

Lemma glob_remixed_in (dir : string) (files : list (string * bytes))
  (name : string) :
  In name (Api.glob_remixed dir files) ->
  fs_lookup files (dir ++ "/" ++ name) <> None
  /\ prefix "remixed_image_" name = true
  /\ contains "/" name = false.
Proof.
  induction files as [|[p d] files IH]; [intros []|].
  cbn [Api.glob_remixed fs_lookup].
  destruct (Api.remixed_name dir p) as [n|] eqn:Hn.
  - intros [<-|Hin].
    + apply remixed_name_some in Hn as (-> & Hp & Hc).
      rewrite String.eqb_refl. repeat split; auto. discriminate.
    + destruct (IH Hin) as (Hf & Hp & Hc).
      destruct (p =? _)%string; repeat split; auto. discriminate.
  - intros Hin. destruct (IH Hin) as (Hf & Hp & Hc).
    destruct (p =? _)%string; repeat split; auto. discriminate.
Qed.

(** X12: [get_output_image] changes nothing, and what it serves is a file
    that is there, directly in the output directory, under a name that
    starts with [remixed_image_]; every other request is answered 403 or
    404.  So neither a staged room photo nor a file outside the output
    directory is ever served. *)
Theorem output_served_from_output_dir
  (H : Api.Host) (filename : string) (w : World) :
  let r := Api.get_output_image H filename w in
  snd r = w
  /\ ((exists name,
          fst r = Ok (Api.OUTPUT_DIR H ++ "/" ++ name)
          /\ name = Api.safe_filename filename
          /\ prefix "remixed_image_" name = true
          /\ contains "/" name = false
          /\ fs_lookup (fs w) (Api.OUTPUT_DIR H ++ "/" ++ name) <> None)
      \/ fst r = Raised (HTTPException 403 "Access denied")
      \/ fst r = Raised (HTTPException 404 "Output image not found")).
Proof.
  cbv zeta. unfold Api.get_output_image.
  destruct (prefix "remixed_image_" (Api.safe_filename filename)) eqn:Hp;
    cbn [negb]; [|split; [reflexivity | right; now left]].
  destruct (safe_filename_bare filename) as [Hs _].
  assert (Hc : contains "/" (Api.safe_filename filename) = false)
    by now rewrite contains_slash, Hs.
  assert (Hne : Api.safe_filename filename <> "")
    by (intros Heq; rewrite Heq in Hp; discriminate Hp).
  destruct (output_dir_proper H) as [Hd Hend].
  rewrite child_path; auto using prefix_not_slash.
  unfold bind, path_exists.
  destruct (fs_lookup (fs w) _) eqn:Hf; cbn [negb ret raise fst snd].
  - split; [reflexivity|]. left. exists (Api.safe_filename filename).
    repeat split; auto. now rewrite Hf.
  - split; [reflexivity | right; now right].
Qed.

(** ** Further properties: the generation endpoint *)

Lemma fs_lookup_remove (files : list (string * bytes)) (p q : string) :
  fs_lookup (fs_remove files p) q
  = if (q =? p)%string then None else fs_lookup files q.
Proof.
  unfold fs_remove.
  induction files as [|[r d] files IH]; cbn [filter fs_lookup fst].
  - now destruct (q =? p)%string.
  - destruct (r =? p)%string eqn:Hr; cbn [negb fs_lookup].
    + apply String.eqb_eq in Hr as ->. rewrite IH.
      destruct (q =? p)%string eqn:Hq; [reflexivity|].
      rewrite String.eqb_sym, Hq. reflexivity.
    + rewrite IH. destruct (r =? q)%string eqn:Hrq; [|reflexivity].
      apply String.eqb_eq in Hrq as ->. now rewrite Hr.
Qed.

Lemma glob_remixed_remove (dir : string) (files : list (string * bytes))
  (p : string) :
  Api.remixed_name dir p = None ->
  Api.glob_remixed dir (fs_remove files p) = Api.glob_remixed dir files.
Proof.
  intros Hp. unfold fs_remove.
  induction files as [|[q d] files IH]; cbn [filter Api.glob_remixed fst];
    [reflexivity|].
  destruct (q =? p)%string eqn:Hq; cbn [negb Api.glob_remixed].
  - apply String.eqb_eq in Hq as ->. now rewrite Hp.
  - now rewrite IH.
Qed.

Section EndpointRuns.
Variable E : Env.
Variable H : Api.Host.

Lemma cleanup_run (o : option string) (w : World) :
  Api.cleanup o w = (Ok tt, snd (Api.cleanup o w)).
Proof. destruct (cleanup_returns o w) as [w' ->]. reflexivity. Qed.

Lemma cleanup_fs (o : option string) (w : World) :
  fs (snd (Api.cleanup o w))
  = match o with
    | Some p => fs_remove (fs w) p
    | None => fs w
    end.
Proof.
  destruct o as [p|]; [|reflexivity].
  cbn [Api.cleanup]. unfold bind, path_exists, unlink.
  destruct (fs_lookup (fs w) p) eqn:Hp.
  - rewrite Hp. reflexivity.
  - cbn. unfold fs_remove. symmetry.
    induction (fs w) as [|[q d] files IH]; cbn [filter fst fs_lookup] in *;
      [reflexivity|].
    destruct (q =? p)%string; [discriminate Hp|]. cbn [negb]. f_equal.
    now apply IH.
Qed.

Lemma cleanup_calls (o : option string) (w : World) :
  calls (trace (snd (Api.cleanup o w))) = calls (trace w).
Proof.
  destruct o as [p|]; [|reflexivity].
  cbn [Api.cleanup]. unfold bind, path_exists, unlink.
  destruct (fs_lookup (fs w) p) eqn:Hp.
  - rewrite Hp. cbn. rewrite calls_app. cbn. now rewrite app_nil_r.
  - reflexivity.
Qed.

(** The checks of [generate_table] that come before the key. *)
Lemma generate_table_staged (vorm onderstel kleur : string)
  (room_photo : option Api.UploadFile) (w : World) :
  (forall p, In p (input_paths H vorm onderstel kleur) ->
             fs_lookup (fs w) p <> None) ->
  small_enough room_photo ->
  let w1 := staged_world H room_photo w in
  Api.generate_table E H vorm onderstel kleur room_photo w
  = if negb (truthy_opt (environ E "GEMINI_API_KEY")) then
      (Raised (HTTPException 500
                 "GEMINI_API_KEY not configured. Please set environment variable."),
       w1)
    else
      try_except
        (remix_images E (request_paths H vorm onderstel kleur room_photo)
           (generate_table_prompt (with_room room_photo) "")
           (Api.OUTPUT_DIR H) ;;;
         found <- Api.output_files H ;;
         match found with
         | [] =>
             raise (HTTPException 500
                      "Image generation failed - no output produced")
         | latest_output :: _ =>
             Api.cleanup (staged_photo H room_photo) ;;;
             ret (Api.mkJSONResponse true ("/api/output/" ++ latest_output)
                    latest_output "Table generated successfully")
         end)
        (fun e =>
           Api.cleanup (staged_photo H room_photo) ;;;
           raise (HTTPException 500 ("Generation failed: " ++ Api.str_exn e)))
        w1.
Proof.
  intros Hin Hsize. cbv zeta. unfold Api.generate_table. cbv zeta.
  unfold bind at 1. rewrite require_all_found.
  2:{ intros [p n] Hc. cbn [fst]. apply Hin. unfold input_paths.
      destruct Hc as [Hc|[Hc|[Hc|[]]]]; injection Hc as <- _; cbn; auto. }
  destruct room_photo as [file|];
    cbn [staged_world request_paths staged_photo with_room small_enough] in *.
  - unfold bind at 1. unfold bind at 1. unfold Api.validate_file_size.
    replace (Z.of_nat (length (Api.upload file)) >? Api.MAX_FILE_SIZE)%Z
      with false by (symmetry; rewrite Z.gtb_ltb; apply Z.ltb_ge, Hsize).
    cbn [ret]. unfold bind at 1. cbn [write_file ret fst snd].
    destruct (negb _); reflexivity.
  - unfold bind at 1. cbn [ret fst snd].
    destruct (negb _); reflexivity.
Qed.

(** What comes of the run of [remix_images] inside [generate_table]. *)
Lemma generate_table_outcome (vorm onderstel kleur : string)
  (room_photo : option Api.UploadFile) (w : World) :
  (forall p, In p (input_paths H vorm onderstel kleur) ->
             fs_lookup (fs w) p <> None) ->
  small_enough room_photo ->
  truthy_opt (environ E "GEMINI_API_KEY") = true ->
  let r := remix_images E (request_paths H vorm onderstel kleur room_photo)
             (generate_table_prompt (with_room room_photo) "")
             (Api.OUTPUT_DIR H) (staged_world H room_photo w) in
  let w3 := snd (Api.cleanup (staged_photo H room_photo) (snd r)) in
  Api.generate_table E H vorm onderstel kleur room_photo w
  = match fst r with
    | Ok _ =>
        match Api.newest_first H
                (Api.glob_remixed (Api.OUTPUT_DIR H) (fs (snd r))) with
        | [] =>
            (Raised (HTTPException 500
                       "Generation failed: 500: Image generation failed - no output produced"),
             w3)
        | latest_output :: _ =>
            (Ok (Api.mkJSONResponse true ("/api/output/" ++ latest_output)
                   latest_output "Table generated successfully"), w3)
        end
    | Raised e =>
        if is_Exception e
        then (Raised (HTTPException 500
                        ("Generation failed: " ++ Api.str_exn e)), w3)
        else (Raised e, snd r)
    end.
Proof.
  intros Hin Hsize Hkey. cbv zeta.
  rewrite generate_table_staged by assumption. rewrite Hkey. cbn [negb].
  unfold try_except, bind at 1 2.
  destruct (remix_images E _ _ _ _) as [[[]|e] w2]; cbn [fst snd].
  - unfold Api.output_files.
    destruct (Api.newest_first H _) as [|name rest].
    + cbn [raise is_Exception]. unfold bind. rewrite cleanup_run. reflexivity.
    + unfold bind. rewrite cleanup_run. reflexivity.
  - destruct (is_Exception e); [|reflexivity].
    unfold bind. rewrite cleanup_run. reflexivity.
Qed.

End EndpointRuns.

(** What [remix_images] raises is an [Exception], when the errors of the
    service are. *)
Section Raises.
Variable E : Env.
Hypothesis service_raises_exceptions :
  forall model contents e,
    failure (service E model contents) = Some e -> is_Exception e = true.

Lemma process_parts_raises (out : string) (ps : list Part) :
  forall (i : nat) (w : World) (e : exn),
    fst (process_parts E out ps i w) = Raised e -> is_Exception e = true.
Proof.
  induction ps as [|p ps IH]; intros i w e; cbn [process_parts];
    [discriminate|].
  unfold bind. rewrite process_part_run.
  destruct (binary_of p) as [[d [m|]]|]; cbv beta iota zeta.
  - apply IH.
  - cbn. now intros [= <-].
  - destruct (text p) as [[|c t]|]; apply IH.
Qed.

Lemma process_chunks_raises (out : string) (cs : list Chunk) :
  forall (i : nat) (w : World) (e : exn),
    fst (process_chunks E out cs i w) = Raised e -> is_Exception e = true.
Proof.
  induction cs as [|c cs IH]; intros i w e; cbn [process_chunks];
    [discriminate|].
  unfold bind.
  assert (Hc : forall e0, fst (process_chunk E out c i w) = Raised e0 ->
                          is_Exception e0 = true).
  { destruct c as [[[|[[[[ps|]]|]] cands]|]]; cbn; intros e0;
      try discriminate; try (now intros [= <-]).
    apply process_parts_raises. }
  destruct (process_chunk E out c i w) as [[i1|e1] w1]; cbn [fst] in *.
  - apply IH.
  - intros [= <-]. now apply Hc.
Qed.

Lemma remix_raises (paths : list string) (prompt out : string) (w : World)
  (e : exn) :
  fst (remix_images E paths prompt out w) = Raised e -> is_Exception e = true.
Proof.
  unfold remix_images. destruct (negb _); [now intros [= <-]|].
  unfold bind, _load_image_parts.
  assert (Hl : forall ps acc e0,
             fst (load_from E ps acc w) = Raised e0 -> is_Exception e0 = true).
  { induction ps as [|p ps IH]; intros acc e0; cbn [load_from];
      [discriminate|].
    unfold bind, read_file, _get_mime_type.
    destruct (fs_lookup (fs w) p); [|now intros [= <-]].
    destruct (guess_type E p); [apply IH | now intros [= <-]]. }
  specialize (Hl paths []).
  destruct (load_from E paths [] w) as [[ps|e0] w1]; cbn [fst] in *;
    [|intros [= <-]; now apply Hl].
  cbn [print emit generate_content_stream].
  unfold _process_api_stream_response, bind.
  match goal with |- context [process_chunks E out ?cs 0 ?w2] =>
    pose proof (process_chunks_raises out cs 0 w2) as Hc;
    destruct (process_chunks E out cs 0 w2) as [[i|e1] w3] end;
    cbn [fst] in *.
  - destruct (failure _) eqn:Hf; [|discriminate].
    intros [= <-]. eapply service_raises_exceptions, Hf.
  - intros [= <-]. now apply Hc.
Qed.

End Raises.




(** X14: an uploaded room photo of more than 10 MB is answered 413 before it
    is stored: nothing is written and nothing is sent. *)
Theorem oversized_upload_is_413
  (E : Env) (H : Api.Host) (vorm onderstel kleur : string)
  (file : Api.UploadFile) (w : World) :
  (forall p, In p (input_paths H vorm onderstel kleur) ->
             fs_lookup (fs w) p <> None) ->
  (Z.of_nat (length (Api.upload file)) > 10 * 1024 * 1024)%Z ->
  Api.generate_table E H vorm onderstel kleur (Some file) w
  = (Raised (HTTPException 413 "File exceeds 10MB limit"), w).
Proof.
  intros Hin Hsize. unfold Api.generate_table. cbv zeta.
  unfold bind at 1. rewrite require_all_found.
  2:{ intros [p n] Hc. cbn [fst]. apply Hin. unfold input_paths.
      destruct Hc as [Hc|[Hc|[Hc|[]]]]; injection Hc as <- _; cbn; auto. }
  unfold bind at 1. unfold bind at 1. unfold Api.validate_file_size.
  replace (Z.of_nat (length (Api.upload file)) >? Api.MAX_FILE_SIZE)%Z
    with true; [reflexivity|].
  symmetry. apply Z.gtb_lt. unfold Api.MAX_FILE_SIZE. lia.
Qed.

Lemma oversized_upload_is_413_witness :
  Api.generate_table Sample.env Sample.host "rond.jpeg" "kruis.png" "eiken.jpg"
    (Some (Api.mkUploadFile (repeat x00 (Z.to_nat 10485761))))
    (empty_world Sample.server_files)
  = (Raised (HTTPException 413 "File exceeds 10MB limit"),
     empty_world Sample.server_files).
Proof.
  apply oversized_upload_is_413.
  - intros p [<-|[<-|[<-|[]]]]; vm_compute; discriminate.
  - cbn [Api.upload]. rewrite repeat_length, Z2Nat.id; lia.
Defined.

(** X15: without a key the endpoint answers 500 "GEMINI_API_KEY not
    configured", and sends nothing; but the check comes after the upload has
    been stored, so the staged room photo stays in the output directory. *)
Theorem missing_key_leaves_staged_photo
  (E : Env) (H : Api.Host) (vorm onderstel kleur : string)
  (file : Api.UploadFile) (w : World) :
  (forall p, In p (input_paths H vorm onderstel kleur) ->
             fs_lookup (fs w) p <> None) ->
  (Z.of_nat (length (Api.upload file)) <= Api.MAX_FILE_SIZE)%Z ->
  truthy_opt (environ E "GEMINI_API_KEY") = false ->
  let r := Api.generate_table E H vorm onderstel kleur (Some file) w in
  fst r = Raised (HTTPException 500
                    "GEMINI_API_KEY not configured. Please set environment variable.")
  /\ calls (trace (snd r)) = calls (trace w)
  /\ fs_lookup (fs (snd r)) (room_path H) = Some (Api.upload file).
Proof.
  intros Hin Hsize Hkey. cbv zeta.
  rewrite generate_table_staged by assumption. rewrite Hkey.
  cbn [negb fst snd staged_world fs trace].
  split; [reflexivity|]. split.
  - rewrite calls_app. cbn. now rewrite app_nil_r.
  - apply fs_lookup_store.
Qed.

Lemma missing_key_leaves_staged_photo_witness :
  let E := mkEnv (fun _ => Some "") Sample.guess_type Sample.guess_extension
             Sample.clock (fun _ _ => Sample.two_chunks) in
  let r := Api.generate_table E Sample.host "rond.jpeg" "kruis.png" "eiken.jpg"
             (Some (Api.mkUploadFile [x09]))
             (empty_world Sample.server_files) in
  fst r = Raised (HTTPException 500
                    "GEMINI_API_KEY not configured. Please set environment variable.")
  /\ calls (trace (snd r)) = []
  /\ fs_lookup (fs (snd r))
       "/srv/rauw/output/temp_room_9f8e7d6c5b4a3921.jpg" = Some [x09].
Proof.
  cbv zeta.
  apply (missing_key_leaves_staged_photo
           (mkEnv (fun _ => Some "") Sample.guess_type Sample.guess_extension
              Sample.clock (fun _ _ => Sample.two_chunks))
           Sample.host "rond.jpeg" "kruis.png" "eiken.jpg"
           (Api.mkUploadFile [x09]) (empty_world Sample.server_files)).
  - intros p [<-|[<-|[<-|[]]]]; vm_compute; discriminate.
  - vm_compute. discriminate.
  - reflexivity.
Defined.

(** X16: once the key is there, the staged room photo is gone when
    [generate_table] ends, whether it ends with a result or with an error. *)
Theorem staged_photo_removed
  (E : Env) (H : Api.Host) (vorm onderstel kleur : string)
  (file : Api.UploadFile) (w : World) :
  (forall model contents e,
      failure (service E model contents) = Some e -> is_Exception e = true) ->
  (forall p, In p (input_paths H vorm onderstel kleur) ->
             fs_lookup (fs w) p <> None) ->
  (Z.of_nat (length (Api.upload file)) <= Api.MAX_FILE_SIZE)%Z ->
  truthy_opt (environ E "GEMINI_API_KEY") = true ->
  fs_lookup
    (fs (snd (Api.generate_table E H vorm onderstel kleur (Some file) w)))
    (room_path H) = None.
Proof.
  intros Hsvc Hin Hsize Hkey.
  rewrite (generate_table_outcome E H vorm onderstel kleur (Some file) w)
    by assumption.
  cbv zeta.
  pose proof (remix_raises E Hsvc
                (request_paths H vorm onderstel kleur (Some file))
                (generate_table_prompt (with_room (Some file)) "")
                (Api.OUTPUT_DIR H) (staged_world H (Some file) w)) as Hexc.
  destruct (remix_images E _ _ _ _) as [[[]|e] w2]; cbn [fst snd] in *.
  - destruct (Api.newest_first H _); cbn [snd];
      rewrite cleanup_fs; cbn [staged_photo];
      now rewrite fs_lookup_remove, String.eqb_refl.
  - rewrite (Hexc e eq_refl). cbn [snd].
    rewrite cleanup_fs. cbn [staged_photo].
    now rewrite fs_lookup_remove, String.eqb_refl.
Qed.

Lemma staged_photo_removed_witness :
  fs_lookup
    (fs (snd (Api.generate_table Sample.env Sample.host "rond.jpeg" "kruis.png"
                "eiken.jpg" (Some (Api.mkUploadFile [x09]))
                (empty_world Sample.server_files))))
    "/srv/rauw/output/temp_room_9f8e7d6c5b4a3921.jpg" = None.
Proof.
  apply (staged_photo_removed Sample.env Sample.host "rond.jpeg" "kruis.png"
           "eiken.jpg" (Api.mkUploadFile [x09])
           (empty_world Sample.server_files)).
  - intros model contents e Hf. discriminate Hf.
  - intros p [<-|[<-|[<-|[]]]]; vm_compute; discriminate.
  - vm_compute. discriminate.
  - reflexivity.
Defined.



(** ** Further properties: the newest result and its way back *)

Section Newest.
Variable H : Api.Host.

Lemma insert_by_mtime_in (name : string) (l : list string) (x : string) :
  In x (Api.insert_by_mtime H name l) <-> x = name \/ In x l.
Proof.
  induction l as [|y l IH]; cbn [Api.insert_by_mtime].
  - cbn. intuition.
  - destruct (Qle_bool _ _); cbn [In]; [intuition|].
    rewrite IH. intuition.
Qed.

Lemma newest_first_in (l : list string) (x : string) :
  In x (Api.newest_first H l) <-> In x l.
Proof.
  unfold Api.newest_first.
  induction l as [|y l IH]; cbn [fold_right]; [reflexivity|].
  rewrite insert_by_mtime_in, IH. cbn. intuition.
Qed.

Lemma insert_by_mtime_head (name : string) (l : list string) :
  (forall x rest, l = x :: rest ->
                  forall y, In y (x :: rest) -> (age_of H y <= age_of H x)%Q) ->
  forall x rest, Api.insert_by_mtime H name l = x :: rest ->
                 forall y, In y (x :: rest) -> (age_of H y <= age_of H x)%Q.
Proof.
  intros Hl x rest. destruct l as [|z l]; cbn [Api.insert_by_mtime].
  - intros [= <- <-] y [<-|[]]. apply Qle_refl.
  - change (Api.st_mtime H (Api.path_div (Api.OUTPUT_DIR H) z)) with (age_of H z).
    change (Api.st_mtime H (Api.path_div (Api.OUTPUT_DIR H) name))
      with (age_of H name).
    destruct (Qle_bool (age_of H z) (age_of H name)) eqn:Hle.
    + apply Qle_bool_iff in Hle. intros [= <- <-] y [<-|Hy].
      * apply Qle_refl.
      * eapply Qle_trans; [|exact Hle]. apply (Hl z l eq_refl). exact Hy.
    + intros [= <- <-] y Hy.
      assert (Hlt : (age_of H name < age_of H z)%Q).
      { apply Qnot_le_lt. intros Hc. apply Qle_bool_iff in Hc. congruence. }
      destruct Hy as [<-|Hy]; [apply Qle_refl|].
      apply insert_by_mtime_in in Hy as [->|Hy].
      * now apply Qlt_le_weak.
      * apply (Hl z l eq_refl). now right.
Qed.

Lemma newest_first_head (l : list string) :
  forall x rest, Api.newest_first H l = x :: rest ->
                 forall y, In y l -> (age_of H y <= age_of H x)%Q.
Proof.
  assert (G : forall x rest, Api.newest_first H l = x :: rest ->
                             forall y, In y (x :: rest) -> (age_of H y <= age_of H x)%Q).
  { unfold Api.newest_first.
    induction l as [|z l IH]; cbn [fold_right]; [discriminate|].
    apply insert_by_mtime_head. exact IH. }
  intros x rest Hx y Hy. apply (G x rest Hx).
  rewrite <- Hx. now apply newest_first_in.
Qed.

End Newest.

Lemma get_output_image_found (H : Api.Host) (name : string) (w : World) :
  prefix "remixed_image_" name = true ->
  contains "/" name = false ->
  fs_lookup (fs w) (Api.OUTPUT_DIR H ++ "/" ++ name) <> None ->
  Api.get_output_image H name w = (Ok (Api.OUTPUT_DIR H ++ "/" ++ name), w).
Proof.
  intros Hp Hc Hf.
  assert (Hne : name <> "") by (intros ->; discriminate Hp).
  assert (Hnd : name <> ".") by (intros ->; discriminate Hp).
  unfold Api.get_output_image. cbv zeta.
  rewrite safe_filename_plain; try assumption.
  2:{ rewrite contains_slash in Hc. now destruct (all_chars not_slash name). }
  rewrite Hp. cbn [negb].
  destruct (output_dir_proper H) as [Hd Hend].
  rewrite child_path; auto using prefix_not_slash.
  unfold bind, path_exists.
  destruct (fs_lookup (fs w) _); [reflexivity | now elim Hf].
Qed.

Section Results.
Variable E : Env.
Variable H : Api.Host.
Variables vorm onderstel kleur : string.
Variable room_photo : option Api.UploadFile.
Variable w : World.

Hypothesis inputs_found :
  forall p, In p (input_paths H vorm onderstel kleur) ->
            fs_lookup (fs w) p <> None.
Hypothesis upload_small : small_enough room_photo.
Hypothesis key_set : truthy_opt (environ E "GEMINI_API_KEY") = true.

(** A result names a file that the listing of the output directory holds
    when the endpoint ends, and none there is newer. *)
Lemma result_in_listing (resp : Api.JSONResponse) :
  fst (Api.generate_table E H vorm onderstel kleur room_photo w) = Ok resp ->
  let names :=
    Api.glob_remixed (Api.OUTPUT_DIR H)
      (fs (snd (Api.generate_table E H vorm onderstel kleur room_photo w))) in
  resp = Api.mkJSONResponse true ("/api/output/" ++ Api.filename resp)
           (Api.filename resp) "Table generated successfully"
  /\ In (Api.filename resp) names
  /\ forall other, In other names ->
                   (age_of H other <= age_of H (Api.filename resp))%Q.
Proof.
  cbv zeta. rewrite generate_table_outcome by assumption. cbv zeta.
  destruct (remix_images E _ _ _ _) as [[[]|e] w2]; cbn [fst snd].
  - destruct (Api.newest_first H _) as [|name rest] eqn:Hnew; cbn [fst snd];
      [discriminate|].
    intros [= <-]. cbn [Api.filename].
    assert (Hglob : Api.glob_remixed (Api.OUTPUT_DIR H)
                      (fs (snd (Api.cleanup (staged_photo H room_photo) w2)))
                    = Api.glob_remixed (Api.OUTPUT_DIR H) (fs w2)).
    { rewrite cleanup_fs. destruct room_photo; cbn [staged_photo];
        [|reflexivity].
      apply glob_remixed_remove, temp_room_not_remixed. }
    rewrite Hglob. split; [reflexivity|]. split.
    + apply (newest_first_in H). rewrite Hnew. now left.
    + intros other Ho. eapply newest_first_head; eassumption.
  - destruct (is_Exception e); discriminate.
Qed.

End Results.

(** X18: the file that a result of [generate_table] names can be fetched:
    [get_output_image] with that name, asked when the endpoint has ended,
    serves the file of that name in the output directory. *)
Theorem result_can_be_fetched
  (E : Env) (H : Api.Host) (vorm onderstel kleur : string)
  (room_photo : option Api.UploadFile) (w : World) (resp : Api.JSONResponse) :
  (forall p, In p (input_paths H vorm onderstel kleur) ->
             fs_lookup (fs w) p <> None) ->
  small_enough room_photo ->
  truthy_opt (environ E "GEMINI_API_KEY") = true ->
  fst (Api.generate_table E H vorm onderstel kleur room_photo w) = Ok resp ->
  let w' := snd (Api.generate_table E H vorm onderstel kleur room_photo w) in
  Api.output_url resp = "/api/output/" ++ Api.filename resp
  /\ Api.get_output_image H (Api.filename resp) w'
     = (Ok (Api.OUTPUT_DIR H ++ "/" ++ Api.filename resp), w').
Proof.
  intros Hin Hsize Hkey Hok. cbv zeta.
  destruct (result_in_listing E H vorm onderstel kleur room_photo w
              Hin Hsize Hkey resp Hok) as (Hresp & Hname & _).
  split; [now rewrite Hresp|].
  apply glob_remixed_in in Hname as (Hf & Hp & Hc).
  now apply get_output_image_found.
Qed.

Lemma result_can_be_fetched_witness :
  let r := Api.generate_table Sample.env Sample.host "rond.jpeg" "kruis.png"
             "eiken.jpg" None (empty_world Sample.server_files) in
  Api.get_output_image Sample.host "remixed_image_1700000000_0.png" (snd r)
  = (Ok "/srv/rauw/output/remixed_image_1700000000_0.png", snd r).
Proof.
  cbv zeta.
  destruct (result_can_be_fetched Sample.env Sample.host "rond.jpeg"
              "kruis.png" "eiken.jpg" None (empty_world Sample.server_files)
              (Api.mkJSONResponse true
                 "/api/output/remixed_image_1700000000_0.png"
                 "remixed_image_1700000000_0.png"
                 "Table generated successfully"))
    as [_ Hget].
  - intros p [<-|[<-|[<-|[]]]]; vm_compute; discriminate.
  - exact I.
  - reflexivity.
  - vm_compute. reflexivity.
  - exact Hget.
Defined.

(** X19: the file that a result names is a newest one of the output
    directory: no file there that is named [remixed_image_*] has a later
    modification time (so it need not be a file of this request). *)
Theorem result_is_newest
  (E : Env) (H : Api.Host) (vorm onderstel kleur : string)
  (room_photo : option Api.UploadFile) (w : World) (resp : Api.JSONResponse) :
  (forall p, In p (input_paths H vorm onderstel kleur) ->
             fs_lookup (fs w) p <> None) ->
  small_enough room_photo ->
  truthy_opt (environ E "GEMINI_API_KEY") = true ->
  fst (Api.generate_table E H vorm onderstel kleur room_photo w) = Ok resp ->
  let w' := snd (Api.generate_table E H vorm onderstel kleur room_photo w) in
  forall other,
    In other (Api.glob_remixed (Api.OUTPUT_DIR H) (fs w')) ->
    (Api.st_mtime H (Api.path_div (Api.OUTPUT_DIR H) other)
     <= Api.st_mtime H (Api.path_div (Api.OUTPUT_DIR H) (Api.filename resp)))%Q.
Proof.
  intros Hin Hsize Hkey Hok. cbv zeta.
  destruct (result_in_listing E H vorm onderstel kleur room_photo w
              Hin Hsize Hkey resp Hok) as (_ & _ & Hmax).
  exact Hmax.
Qed.

Lemma result_is_newest_witness :
  let w := empty_world (Sample.server_files ++ [Sample.earlier_result])%list in
  let r := Api.generate_table Sample.env Sample.timed_host "rond.jpeg"
             "kruis.png" "eiken.jpg" None w in
  fst r = Ok (Api.mkJSONResponse true
                "/api/output/remixed_image_1700000000_0.png"
                "remixed_image_1700000000_0.png"
                "Table generated successfully")
  /\ forall other,
       In other (Api.glob_remixed (Api.OUTPUT_DIR Sample.timed_host)
                   (fs (snd r))) ->
       (Api.st_mtime Sample.timed_host
          (Api.path_div (Api.OUTPUT_DIR Sample.timed_host) other)
        <= Api.st_mtime Sample.timed_host
             (Api.path_div (Api.OUTPUT_DIR Sample.timed_host)
                "remixed_image_1700000000_0.png"))%Q.
Proof.
  cbv zeta.
  assert (Hok : fst (Api.generate_table Sample.env Sample.timed_host
                       "rond.jpeg" "kruis.png" "eiken.jpg" None
                       (empty_world
                          (Sample.server_files ++ [Sample.earlier_result])%list))
                = Ok (Api.mkJSONResponse true
                        "/api/output/remixed_image_1700000000_0.png"
                        "remixed_image_1700000000_0.png"
                        "Table generated successfully"))
    by (vm_compute; reflexivity).
  split; [exact Hok|].
  apply (result_is_newest Sample.env Sample.timed_host "rond.jpeg" "kruis.png"
           "eiken.jpg" None
           (empty_world (Sample.server_files ++ [Sample.earlier_result])%list)
           _ ltac:(intros p [<-|[<-|[<-|[]]]]; vm_compute; discriminate)
           I eq_refl Hok).
Defined.

(** X20: the endpoint sends one request: the shape, the base and the finish
    in this order, then the staged room photo if one was uploaded, each with
    the type told from its name, and last the prompt of the template for
    the case, which never holds a leg-count clause. *)
Theorem endpoint_request
  (E : Env) (H : Api.Host) (vorm onderstel kleur : string)
  (room_photo : option Api.UploadFile) (w : World) :
  (forall p, In p (input_paths H vorm onderstel kleur) ->
             loaded E (fs w) p <> None) ->
  small_enough room_photo ->
  (with_room room_photo = true -> guess_type E (room_path H) <> None) ->
  truthy_opt (environ E "GEMINI_API_KEY") = true ->
  let paths := request_paths H vorm onderstel kleur room_photo in
  let prompt := generate_table_prompt (with_room room_photo) "" in
  calls (trace (snd (Api.generate_table E H vorm onderstel kleur room_photo w)))
  = (calls (trace w)
     ++ [(image_parts E (fs (staged_world H room_photo w)) paths
          ++ [from_text prompt])%list])%list
  /\ length (image_parts E (fs (staged_world H room_photo w)) paths)
     = length paths
  /\ contains "exactly" prompt = false.
Proof.
  intros Hin Hsize Htype Hkey. cbv zeta.
  assert (Hfound : forall p, In p (input_paths H vorm onderstel kleur) ->
                             fs_lookup (fs w) p <> None).
  { intros p Hp. now apply Hin, loaded_found in Hp. }
  assert (Hall : forall p,
             In p (request_paths H vorm onderstel kleur room_photo) ->
             loaded E (fs (staged_world H room_photo w)) p <> None).
  { destruct room_photo as [file|]; cbn [request_paths staged_world fs];
      [|exact Hin].
    intros p Hp. apply loaded_found.
    apply in_app_or in Hp as [Hp|[<-|[]]].
    - apply Hin, loaded_found in Hp as [Hf Ht].
      split; [now apply fs_lookup_store_some | exact Ht].
    - split; [now rewrite fs_lookup_store | now apply Htype]. }
  split; [|split].
  - rewrite generate_table_outcome by assumption. cbv zeta.
    pose proof (remix_request E
                  (request_paths H vorm onderstel kleur room_photo)
                  (generate_table_prompt (with_room room_photo) "")
                  (Api.OUTPUT_DIR H) (staged_world H room_photo w) Hkey Hall)
      as Hreq.
    assert (Hw1 : calls (trace (staged_world H room_photo w))
                  = calls (trace w)).
    { destruct room_photo; cbn [staged_world trace]; [|reflexivity].
      rewrite calls_app. cbn. now rewrite app_nil_r. }
    rewrite Hw1 in Hreq.
    destruct (remix_images E _ _ _ _) as [[[]|e] w2]; cbn [fst snd] in *.
    + destruct (Api.newest_first H _); cbn [snd];
        now rewrite cleanup_calls.
    + destruct (is_Exception e); cbn [snd]; [now rewrite cleanup_calls|].
      exact Hreq.
  - now apply image_parts_length.
  - destruct room_photo; vm_compute; reflexivity.
Qed.

Lemma endpoint_request_witness :
  calls (trace (snd (Api.generate_table Sample.env Sample.host "rond.jpeg"
                       "kruis.png" "eiken.jpg"
                       (Some (Api.mkUploadFile [x09]))
                       (empty_world Sample.server_files))))
  = [[Sample.image_part [x01] "image/jpeg"; Sample.image_part [x02] "image/png";
      Sample.image_part [x03] "image/jpeg"; Sample.image_part [x09] "image/jpeg";
      from_text (generate_table_prompt true "")]].
Proof.
  destruct (endpoint_request Sample.env Sample.host "rond.jpeg" "kruis.png"
              "eiken.jpg" (Some (Api.mkUploadFile [x09]))
              (empty_world Sample.server_files)
              ltac:(intros p [<-|[<-|[<-|[]]]]; vm_compute; discriminate)
              ltac:(vm_compute; discriminate)
              ltac:(intros _; vm_compute; discriminate)
              eq_refl) as (Hc & _).
  rewrite Hc. reflexivity.
Defined.

(** ** Further properties: the category endpoints *)

Lemma insert_sorted_in (name : string) (l : list string) (x : string) :
  In x (Api.insert_sorted name l) <-> x = name \/ In x l.
Proof.
  induction l as [|y l IH]; cbn [Api.insert_sorted].
  - cbn. intuition.
  - destruct (name <=? y)%string; cbn [In]; [intuition|].
    rewrite IH. intuition.
Qed.

Lemma sorted_in (l : list string) (x : string) :
  In x (Api.sorted l) <-> In x l.
Proof.
  unfold Api.sorted.
  induction l as [|y l IH]; cbn [fold_right]; [reflexivity|].
  rewrite insert_sorted_in, IH. cbn. intuition.
Qed.

Lemma insert_sorted_sorted (name : string) (l : list string) :
  Sorted (fun a b => (a <=? b)%string = true) l ->
  Sorted (fun a b => (a <=? b)%string = true) (Api.insert_sorted name l).
Proof.
  induction 1 as [|y l Hs IH Hhd]; cbn [Api.insert_sorted].
  - repeat constructor.
  - destruct (name <=? y)%string eqn:Hle.
    + repeat constructor; assumption.
    + constructor; [exact IH|].
      assert (Hyn : (y <=? name)%string = true).
      { destruct (String.leb_total name y) as [Hc|Hc]; congruence. }
      destruct l as [|z l]; cbn [Api.insert_sorted].
      * now constructor.
      * destruct (name <=? z)%string; constructor; [exact Hyn|].
        now inversion Hhd.
Qed.

Lemma sorted_sorted (l : list string) :
  Sorted (fun a b => (a <=? b)%string = true) (Api.sorted l).
Proof.
  unfold Api.sorted. induction l as [|y l IH]; cbn [fold_right];
    [constructor | now apply insert_sorted_sorted].
Qed.

Lemma iterdir_in (dir : string) (files : list (string * bytes)) (name : string) :
  In name (Api.iterdir dir files) ->
  fs_lookup files (dir ++ "/" ++ name) <> None
  /\ contains "/" name = false
  /\ name <> "".
Proof.
  induction files as [|[p d] files IH]; [intros []|].
  cbn [Api.iterdir fs_lookup].
  assert (Hrest : In name (Api.iterdir dir files) ->
                  (if (p =? dir ++ "/" ++ name)%string
                   then Some d
                   else fs_lookup files (dir ++ "/" ++ name)) <> None
                  /\ contains "/" name = false /\ name <> "").
  { intros Hin. destruct (IH Hin) as (Hf & Hc & Hn).
    destruct (p =? _)%string; repeat split; auto. discriminate. }
  destruct (Api.strip_prefix (dir ++ "/") p) as [n|] eqn:Hs; [|exact Hrest].
  destruct (contains "/" n) eqn:Hc; cbn [negb andb]; [exact Hrest|].
  destruct (n =? "")%string eqn:Hn; cbn [negb]; [exact Hrest|].
  intros [<-|Hin]; [|now apply Hrest].
  apply strip_prefix_some in Hs. rewrite append_assoc in Hs. subst p.
  rewrite String.eqb_refl. repeat split; auto; [discriminate|].
  now apply String.eqb_neq.
Qed.

Lemma category_dir_proper (H : Api.Host) (category : string) :
  existsb (String.eqb category) Api.CATEGORIES = true ->
  Api.path_div (Api.BASE_DIR H) category <> ""
  /\ endswith (Api.path_div (Api.BASE_DIR H) category) "/" = false.
Proof.
  intros Hc. cbn [existsb Api.CATEGORIES] in Hc.
  repeat (apply orb_prop in Hc as [Hc|Hc]); try discriminate Hc;
    apply String.eqb_eq in Hc as ->;
    unfold Api.path_div; cbn [String.eqb Ascii.eqb Bool.eqb];
    apply path_join_proper; (discriminate || reflexivity).
Qed.

(** X21: every image that [list_category_images] lists can be fetched: the
    listing is in ascending order, its count is its length, each name ends
    in .jpg, .jpeg or .png (in any case of letters), and
    [get_category_image] with the same category and that name serves the
    file of that name in the directory of the category. *)
Theorem listed_images_can_be_fetched
  (H : Api.Host) (dir_exists : string -> bool) (category : string) (w : World)
  (listing : Api.Listing) :
  fst (Api.list_category_images H dir_exists category w) = Ok listing ->
  Api.count listing = length (Api.images listing)
  /\ Sorted (fun a b => (a <=? b)%string = true) (Api.images listing)
  /\ forall name,
       In name (Api.images listing) ->
       In (Api.lower (Api.suffix name)) [".jpg"; ".jpeg"; ".png"]
       /\ Api.get_category_image H category name w
          = (Ok (Api.path_div (Api.BASE_DIR H) category ++ "/" ++ name), w).
Proof.
  unfold Api.list_category_images.
  destruct (existsb (String.eqb category) Api.CATEGORIES) eqn:Hcat;
    cbn [negb]; [|discriminate].
  destruct (dir_exists _); cbn [negb]; [|discriminate].
  cbn [fst]. intros [= <-]. cbn [Api.count Api.images].
  split; [reflexivity|]. split; [apply sorted_sorted|].
  intros name Hin. apply sorted_in, filter_In in Hin as [Hin Hsuf].
  apply iterdir_in in Hin as (Hf & Hc & Hne).
  assert (Hext : In (Api.lower (Api.suffix name)) [".jpg"; ".jpeg"; ".png"]).
  { cbn [existsb] in Hsuf.
    repeat (apply orb_prop in Hsuf as [Hsuf|Hsuf]); try discriminate Hsuf;
      apply String.eqb_eq in Hsuf; rewrite Hsuf; cbn; auto. }
  split; [exact Hext|].
  assert (Hnd : name <> ".").
  { intros ->. cbn in Hext. intuition discriminate. }
  unfold Api.get_category_image. rewrite Hcat. cbn [negb]. cbv zeta.
  rewrite safe_filename_plain; try assumption.
  2:{ rewrite contains_slash in Hc. now destruct (all_chars not_slash name). }
  destruct (category_dir_proper H category Hcat) as [Hd Hend].
  rewrite child_path; auto using prefix_not_slash.
  unfold bind, path_exists.
  destruct (fs_lookup (fs w) _); [reflexivity | now elim Hf].
Qed.

Lemma listed_images_can_be_fetched_witness :
  let w := empty_world (Sample.server_files
                        ++ [("/srv/rauw/vorm/Ovaal.PNG", [x06]);
                            ("/srv/rauw/vorm/readme.txt", [x07]);
                            ("/srv/rauw/vorm/oud/recht.png", [x08])])%list in
  fst (Api.list_category_images Sample.host (fun _ => true) "vorm" w)
  = Ok (Api.mkListing "vorm" ["Ovaal.PNG"; "rond.jpeg"] 2)
  /\ Api.get_category_image Sample.host "vorm" "Ovaal.PNG" w
     = (Ok "/srv/rauw/vorm/Ovaal.PNG", w).
Proof.
  intros w.
  assert (Hl : fst (Api.list_category_images Sample.host (fun _ => true)
                      "vorm" w)
               = Ok (Api.mkListing "vorm" ["Ovaal.PNG"; "rond.jpeg"] 2))
    by reflexivity.
  split; [exact Hl|].
  apply (listed_images_can_be_fetched Sample.host (fun _ => true) "vorm" w
           (Api.mkListing "vorm" ["Ovaal.PNG"; "rond.jpeg"] 2) Hl).
  left. reflexivity.
Defined.

(** ** Further properties: empty chunks, requests, and the templates *)

(** X22: chunks without content are transparent: a run over a stream is the
    run over the stream with these chunks taken out, in its result, its
    files and its output. *)
Theorem skippable_chunks_are_transparent
  (E : Env) (out : string) (cs : list Chunk) (f : option exn) (w : World) :
  _process_api_stream_response E (mkStream cs f) out w
  = _process_api_stream_response E
      (mkStream (filter (fun c => negb (skippable c)) cs) f) out w.
Proof.
  unfold _process_api_stream_response. cbn [chunks failure].
  assert (Hcs : forall i w0,
             process_chunks E out cs i w0
             = process_chunks E out
                 (filter (fun c => negb (skippable c)) cs) i w0).
  { induction cs as [|c cs IH]; intros i w0; cbn [filter]; [reflexivity|].
    destruct (skippable c) eqn:Hsk; cbn [negb process_chunks].
    - unfold bind. rewrite chunk_without_content_skipped; [apply IH|].
      unfold skippable in Hsk. destruct c as [[[|[[[[[|p ps]|]]|]] cands]|]];
        cbn [candidates content parts] in *; try discriminate Hsk; eauto 6.
    - unfold bind. destruct (process_chunk E out c i w0) as [[i1|e] w1];
        [apply IH | reflexivity]. }
  unfold bind. now rewrite Hcs.
Qed.

(** X23: [remix_images] sends the service one request or none, never more,
    and so does the command-line mode: nothing is tried again. *)
Theorem at_most_one_request
  (E : Env) (args : Args) (paths : list string) (prompt out : string)
  (w : World) :
  (exists sent,
      calls (trace (snd (remix_images E paths prompt out w)))
      = (calls (trace w) ++ sent)%list
      /\ length sent <= 1)
  /\ (exists sent,
         calls (trace (snd (main_cli E args paths w)))
         = (calls (trace w) ++ sent)%list
         /\ length sent <= 1).
Proof.
  assert (R : forall ps pr o w0,
             exists sent,
               calls (trace (snd (remix_images E ps pr o w0)))
               = (calls (trace w0) ++ sent)%list
               /\ length sent <= 1).
  { intros ps pr o w0. unfold remix_images.
    destruct (negb _); [exists []; cbn; rewrite app_nil_r; auto|].
    unfold bind, _load_image_parts.
    pose proof (load_from_world E ps [] w0) as Hw.
    destruct (load_from E ps [] w0) as [[imgs|e] w1]; cbn [snd] in *; subst w1;
      [|exists []; cbn; rewrite app_nil_r; auto].
    cbn [print emit generate_content_stream].
    match goal with |- context [_process_api_stream_response E ?s o ?w1] =>
      destruct (stream_run E o s w1) as (_ & Hc & _) end.
    rewrite Hc. cbn [trace]. rewrite !calls_app. cbn [calls].
    rewrite app_nil_r. eexists [_]. split; [reflexivity | cbn; lia]. }
  split; [apply R|].
  rewrite main_cli_run. cbv zeta.
  destruct (_ && _).
  - match goal with |- context [remix_images E ?ps ?pr ?o ?w1] =>
      destruct (R ps pr o w1) as (sent & Hs & Hl) end.
    exists sent. rewrite Hs. cbn [trace].
    now rewrite calls_app, calls_stage_lines, app_nil_r.
  - exists []. cbn [snd trace length].
    rewrite calls_app, calls_stage_lines, !app_nil_r. auto.
Qed.

Lemma prefix_append_l (p a b : string) :
  prefix p a = true -> prefix p (a ++ b) = true.
Proof.
  revert a. induction p as [|c p IH]; intros a;
    [intros _; now destruct (a ++ b)|].
  destruct a as [|d a]; cbn [prefix append]; [discriminate|].
  destruct (ascii_dec c d); [apply IH | discriminate].
Qed.

Lemma contains_append_l (p a b : string) :
  contains p a = true -> contains p (a ++ b) = true.
Proof.
  induction a as [|d a IH].
  - cbn [contains]. destruct (prefix p "") eqn:Hp; [|discriminate].
    intros _. destruct p; [|discriminate Hp]. now destruct b.
  - cbn [contains append]. destruct (prefix p (String d a)) eqn:Hp.
    + intros _.
      change (String d (a ++ b)) with (String d a ++ b).
      now rewrite (prefix_append_l _ _ b Hp).
    + intros Ha. rewrite (IH Ha). now destruct (prefix p (String d (a ++ b))).
Qed.

(** X24: whatever leg count is asked for, both templates speak of image 1,
    image 2 and image 3, and the room template of image 4 as well; for the
    leg counts that the designer offers (none, 2, 3 or 4) the template
    without a room never speaks of an image 4. *)
Theorem templates_name_their_images :
  (forall (with_room : bool) (legs : string),
      contains "image 1" (generate_table_prompt with_room legs) = true
      /\ contains "image 2" (generate_table_prompt with_room legs) = true
      /\ contains "image 3" (generate_table_prompt with_room legs) = true)
  /\ (forall legs,
         contains "image 4" (generate_table_prompt true legs) = true)
  /\ (forall legs,
         In legs [""; "2"; "3"; "4"] ->
         contains "image 4" (generate_table_prompt false legs) = false).
Proof.
  split; [|split].
  - intros with_room legs. rewrite prompt_split.
    repeat split; apply contains_append_l; destruct with_room; reflexivity.
  - intros legs. rewrite prompt_split. now apply contains_append_l.
  - intros legs [<-|[<-|[<-|[<-|[]]]]]; reflexivity.
Qed.

Lemma templates_name_their_images_witness :
  contains "image 4" (generate_table_prompt false "3") = false.
Proof.
  apply (proj2 (proj2 templates_name_their_images) "3").
  right. right. left. reflexivity.
Defined.
